(** * GeoSentinal risk engine (app.py): scorer, evaluation cycle, history, geo layers

    A shallow embedding of the decision logic of [app.py]: [compute_score],
    the bench catalog, the callback [update_dashboard] with the module-level
    [history] list and the process-wide [random] source, and [export_csv].

    Numbers.  Python evaluates the scorer in binary64 floats.  The embedding
    is written once over an interface [PyNum] of the operations the code
    uses, and instantiated twice: with exact rationals [Q] (the arithmetic
    the specification reasons in) and with the kernel's binary64 floats
    (the arithmetic the interpreter runs).  Facts that need no arithmetic
    are proved for every instance, facts of arithmetic on the rational
    instance, and concrete runs are evaluated on both.  A Python [int] and
    the [float] of the same value are one number here; on binary64 that
    is faithful below 2^53.

    Effects.  The callbacks run in a state and error monad over the
    module-level state; a raised exception is [None].  The generator of
    [random] is a stream of raw words with a count of the draws made.

    Libraries.  The folium map is modelled by the items added to it, in
    order, and a plotly figure by its title and traces.  The text of the
    export is written by pandas and is not part of [app.py]: the writer
    is an argument of [export_csv]. *)

From Stdlib Require Import ZArith QArith Qround Qpower String Ascii List Bool Lia Lqa.
From Stdlib Require Import PrimFloat SpecFloat FloatOps DecimalString.
From Stdlib Require Uint63.
Import ListNotations.

Set Warnings "-inexact-float".

Open Scope string_scope.
Open Scope list_scope.

(* ================================================================== *)
(** ** Numbers *)
(* ================================================================== *)

(** The numeric operations [app.py] performs.  [of_int] is the promotion of
    a Python [int] operand, [literal n d] the decimal literal [n/d] (0.4 is
    [literal 4 10]), [round1] is [round(x, 1)] and [format_1f] is the format
    specification [:.1f]. *)
Class PyNum (num : Type) : Type := {
  of_int : Z -> num;
  literal : Z -> positive -> num;
  nadd : num -> num -> num;
  nsub : num -> num -> num;
  nmul : num -> num -> num;
  ndiv : num -> num -> num;
  nltb : num -> num -> bool;
  round1 : num -> num;
  format_1f : num -> string
}.

Declare Scope py_scope.
Delimit Scope py_scope with py.
Notation "x + y" := (nadd x y) : py_scope.
Notation "x - y" := (nsub x y) : py_scope.
Notation "x * y" := (nmul x y) : py_scope.
Notation "x / y" := (ndiv x y) : py_scope.
Notation "x <? y" := (nltb x y) : py_scope.

(** Round to the nearest integer, ties to the even one: the rule of
    [round] and of [%.1f] on the exact value of their argument. *)
Definition round_half_even (q : Q) : Z :=
  let f := Qfloor q in
  match (q - inject_Z f ?= 1 # 2)%Q with
  | Lt => f
  | Gt => (f + 1)%Z
  | Eq => if Z.even f then f else (f + 1)%Z
  end.

(** The number of tenths nearest to [q]. *)
Definition tenths (q : Q) : Z := round_half_even (q * 10).

Definition show_nat (n : Z) : string :=
  NilEmpty.string_of_uint (N.to_uint (Z.to_N n)).

(** The text of [m] tenths with one decimal, [neg] being the sign. *)
Definition show_tenths (neg : bool) (m : Z) : string :=
  let a := Z.abs m in
  ((if neg then "-" else "") ++ show_nat (a / 10) ++ "." ++ show_nat (a mod 10))%string.

(** *** Exact rationals *)

Definition Qltb (x y : Q) : bool := negb (Qle_bool y x).

Definition Q_round1 (q : Q) : Q := tenths q # 10.

Definition Q_format_1f (q : Q) : string := show_tenths (Qltb q 0) (tenths q).

#[export] Instance PyNum_Q : PyNum Q := {
  of_int := inject_Z;
  literal := Qmake;
  nadd := Qplus;
  nsub := Qminus;
  nmul := Qmult;
  ndiv := Qdiv;
  nltb := Qltb;
  round1 := Q_round1;
  format_1f := Q_format_1f
}.

(** *** binary64 *)

(** [float(z)]: the binary64 nearest to the integer [z]. *)
Definition f_of_int (z : Z) : float := SF2Prim (binary_normalize prec emax z 0 false).

(** The binary64 nearest to [n/d]; both operands are exact below 2^53. *)
Definition f_literal (n : Z) (d : positive) : float :=
  PrimFloat.div (f_of_int n) (f_of_int (Zpos d)).

(** The exact absolute value of the finite binary64 with mantissa [m] and
    exponent [e]. *)
Definition magnitude (m : positive) (e : Z) : Q := inject_Z (Zpos m) * Qpower 2 e.

(** [round(x, 1)]: the exact value is rounded to tenths, ties to even, and
    the binary64 nearest to that decimal is returned.  From an exponent of
    -3 on the spacing of binary64 exceeds 0.1 and the result is [x]. *)
Definition f_round1 (x : float) : float :=
  match Prim2SF x with
  | S754_finite s m e =>
      if (-3 <=? e)%Z then x
      else
        let r := PrimFloat.div (f_of_int (tenths (magnitude m e))) (f_of_int 10) in
        if s then PrimFloat.opp r else r
  | _ => x
  end.

Definition f_format_1f (x : float) : string :=
  match Prim2SF x with
  | S754_nan => "nan"
  | S754_infinity s => if s then "-inf" else "inf"
  | S754_zero s => show_tenths s 0
  | S754_finite s m e => show_tenths s (tenths (magnitude m e))
  end.

(** The exact value of a binary64 that has one. *)
Definition f_exact (x : float) : option Q :=
  match Prim2SF x with
  | S754_zero _ => Some 0%Q
  | S754_finite s m e => Some (if s then (- magnitude m e)%Q else magnitude m e)
  | _ => None
  end.

#[export] Instance PyNum_float : PyNum float := {
  of_int := f_of_int;
  literal := f_literal;
  nadd := PrimFloat.add;
  nsub := PrimFloat.sub;
  nmul := PrimFloat.mul;
  ndiv := PrimFloat.div;
  nltb := PrimFloat.ltb;
  round1 := f_round1;
  format_1f := f_format_1f
}.

(* ================================================================== *)
(** ** The random source *)
(* ================================================================== *)

(** The process-wide generator of module [random]: the raw words it will
    produce, and how many draws have been made.  Each call of [random()],
    [uniform] or [randint] is one draw. *)
Record Rng : Type := { bits : nat -> Z; drawn : nat }.

Definition advance (g : Rng) : Rng := {| bits := bits g; drawn := S (drawn g) |}.

(** The raw word of the next draw. *)
Definition next_word (g : Rng) : Z := bits g (drawn g).

(** A source to run examples with. *)
Definition sample_rng : Rng :=
  {| bits := fun n => (Z.of_nat n * 3002399751580331 + 12345)%Z; drawn := 0 |}.

(* ================================================================== *)
(** ** Risk levels and the helpers *)
(* ================================================================== *)

(** The three strings [compute_score] returns. *)
Inductive RiskLevel : Type := Low | Medium | High.

Definition risk_label (level : RiskLevel) : string :=
  match level with Low => "Low" | Medium => "Medium" | High => "High" end.

(** [risk_color]; the [.get] default is the colour of "Low". *)
Definition risk_color (level : RiskLevel) : string :=
  match level with
  | Low => "#4CAF50"
  | Medium => "#F4C430"
  | High => "#E53935"
  end.

Definition risk_icon (level : RiskLevel) : string :=
  match level with
  | Low => "🟢"
  | Medium => "🟡"
  | High => "🔴"
  end.

(** Severity order of the levels. *)
Definition severity (level : RiskLevel) : nat :=
  match level with Low => 0 | Medium => 1 | High => 2 end.

Section Engine.

Context {num : Type} `{PyNum num}.

Local Open Scope py_scope.

(* ================================================================== *)
(** ** State and effects *)
(* ================================================================== *)

(** A Python [dict] with string keys: insertion ordered, a repeated key
    keeps its place and takes the new value. *)
Definition PyDict : Type := list (string * num).

Fixpoint dict_set (k : string) (v : num) (d : PyDict) : PyDict :=
  match d with
  | [] => [(k, v)]
  | (k', v') :: d' =>
      if String.eqb k' k then (k', v) :: d' else (k', v') :: dict_set k v d'
  end.

Fixpoint dict_get (k : string) (d : PyDict) : option num :=
  match d with
  | [] => None
  | (k', v) :: d' => if String.eqb k' k then Some v else dict_get k d'
  end.

(** [d.update(items)], which is also what [**] does in a dict display. *)
Definition dict_update (d : PyDict) (items : list (string * num)) : PyDict :=
  fold_left (fun d kv => dict_set (fst kv) (snd kv) d) items d.

(** The dict built from key-value pairs in order. *)
Definition dict_of (items : list (string * num)) : PyDict := dict_update [] items.

(** The module-level state: the global [history], the generator of
    [random], and the overlay computed once at import ([dem_overlay_path]
    with [dem_bounds], or nothing when the raster could not be loaded). *)
Record World : Type := {
  history : list PyDict;
  rng : Rng;
  dem_overlay : option (string * ((num * num) * (num * num)))
}.

Definition set_rng (g : Rng) (w : World) : World :=
  {| history := history w; rng := g; dem_overlay := dem_overlay w |}.

Definition set_history (h : list PyDict) (w : World) : World :=
  {| history := h; rng := rng w; dem_overlay := dem_overlay w |}.

(** Computations that read and write the [World] and may raise. *)
Definition M (A : Type) : Type := World -> option (A * World).

Definition ret {A} (a : A) : M A := fun w => Some (a, w).

Definition bind {A B} (c : M A) (k : A -> M B) : M B :=
  fun w => match c w with Some (a, w') => k a w' | None => None end.

Definition raise {A} : M A := fun _ => None.

Notation "x <- c ;; k" := (bind c (fun x => k))
  (at level 61, c at next level, right associativity).

Definition lift_option {A} (o : option A) : M A :=
  match o with Some a => ret a | None => raise end.

Fixpoint mapM {A B} (f : A -> M B) (l : list A) : M (list B) :=
  match l with
  | [] => ret []
  | a :: l' => b <- f a ;; bs <- mapM f l' ;; ret (b :: bs)
  end.

(** The variate of draw [i]: a 53-bit word over 2^53, in [0, 1). *)
Definition unit_at (g : Rng) (i : nat) : num :=
  of_int (bits g i mod 2 ^ 53) / of_int (2 ^ 53).

(** [random.random()]. *)
Definition random : M num := fun w =>
  Some (unit_at (rng w) (drawn (rng w)), set_rng (advance (rng w)) w).

(** [random.uniform(a, b)] is [a + (b - a) * random()]. *)
Definition uniform (a b : num) : M num :=
  u <- random ;; ret (a + (b - a) * u).

(** [random.randint(a, b)]: an integer of [a..b], one draw. *)
Definition randint (a b : Z) : M Z := fun w =>
  Some ((a + next_word (rng w) mod (b - a + 1))%Z,
        set_rng (advance (rng w)) w).

(* ================================================================== *)
(** ** The scorer *)
(* ================================================================== *)

(** The threshold chain that ends [compute_score]. *)
Definition classify (score : num) : RiskLevel :=
  if score <? of_int 40 then Low
  else if score <? of_int 70 then Medium
  else High.

(** The score of [compute_score] for a given blast multiplier and noise. *)
Definition score_of (rain vib blast : num) (slope : Z) (mult noise : num) : num :=
  let vib_from_blast := blast * mult in
  let total_vib := vib + vib_from_blast in
  of_int slope / of_int 2 + rain * literal 4 10 + total_vib * of_int 5
  + blast * of_int 3 + noise.

Definition compute_score (rain vib blast : num) (slope : Z) (deterministic : bool)
  : M (RiskLevel * num) :=
  mult <- (if deterministic then ret (literal 2 1)
           else uniform (literal 15 10) (literal 3 1)) ;;
  noise <- (if deterministic then ret (of_int 0)
            else uniform (of_int (-5)) (of_int 5)) ;;
  let score := score_of rain vib blast slope mult noise in
  ret (classify score, score).

(* ================================================================== *)
(** ** Data *)
(* ================================================================== *)

(** A coordinate written with four decimals, such as 23.1792. *)
Definition deg (n : Z) : num := literal n 10000.

(** An entry of [benches]: the keys "id", "slope" and "coords". *)
Record BenchRec : Type := {
  b_id : string;
  b_slope : Z;
  b_coords : list (num * num)
}.

Definition benches : list BenchRec := [
  {| b_id := "Bench 1"; b_slope := 35;
     b_coords := [(deg 231792, deg 726508); (deg 231792, deg 726524);
                  (deg 231779, deg 726529); (deg 231768, deg 726518);
                  (deg 231775, deg 726506); (deg 231792, deg 726508)] |};
  {| b_id := "Bench 2"; b_slope := 50;
     b_coords := [(deg 231735, deg 726448); (deg 231736, deg 726468);
                  (deg 231724, deg 726473); (deg 231715, deg 726462);
                  (deg 231719, deg 726450); (deg 231735, deg 726448)] |};
  {| b_id := "Bench 3"; b_slope := 45;
     b_coords := [(deg 231710, deg 726504); (deg 231708, deg 726517);
                  (deg 231696, deg 726521); (deg 231688, deg 726510);
                  (deg 231694, deg 726499); (deg 231710, deg 726504)] |};
  {| b_id := "Bench 4"; b_slope := 60;
     b_coords := [(deg 231670, deg 726420); (deg 231672, deg 726445);
                  (deg 231653, deg 726450); (deg 231643, deg 726433);
                  (deg 231651, deg 726416); (deg 231670, deg 726420)] |}
].

(** An entry of [groups]: the key "benches". *)
Record Group : Type := { g_benches : list string }.

Definition groups : list Group := [
  {| g_benches := ["Bench 1"; "Bench 2"] |};
  {| g_benches := ["Bench 3"; "Bench 4"] |}
].

Definition rivers : list (list (num * num)) := [
  [(deg 231785, deg 726390); (deg 231760, deg 726450);
   (deg 231738, deg 726510); (deg 231745, deg 726570)];
  [(deg 231722, deg 726460); (deg 231718, deg 726510); (deg 231728, deg 726550)]
].

Definition haul_road : list (num * num) :=
  [(deg 231725, deg 726496); (deg 231723, deg 726512)].

Definition truck_xy : num * num := (deg 231723, deg 726512).

(** The module starts with [history = []]; the generator is whatever the
    process seeded. *)
Definition initial_world (g : Rng) (dem : option (string * ((num * num) * (num * num))))
  : World :=
  {| history := []; rng := g; dem_overlay := dem |}.

(* ================================================================== *)
(** ** The evaluation cycle: [update_dashboard] *)
(* ================================================================== *)

(** A dict appended to [results]. *)
Record RiskResult : Type := {
  Bench : string;
  Slope : Z;
  Rainfall : num;
  Vibration : num;
  Blast : num;
  Score : num;
  Risk : RiskLevel
}.

(** [next(b for b in benches if b["id"] == bench_id)]; no match raises. *)
Definition find_bench (bench_id : string) : option BenchRec :=
  find (fun b => String.eqb (b_id b) bench_id) benches.

(** The body of the inner loop over [g["benches"]]. *)
Definition score_bench (deterministic : bool) (gr gv gb : num) (bench_id : string)
  : M RiskResult :=
  bench <- lift_option (find_bench bench_id) ;;
  rs <- compute_score gr gv gb (b_slope bench) deterministic ;;
  ret {| Bench := bench_id; Slope := b_slope bench; Rainfall := gr;
         Vibration := gv; Blast := gb; Score := round1 (snd rs); Risk := fst rs |}.

Definition score_group (deterministic : bool) (gi : Group * (num * num * num))
  : M (list RiskResult) :=
  let '(g, (gr, gv, gb)) := gi in
  mapM (score_bench deterministic gr gv gb) (g_benches g).

(** The two nested loops that fill [results]. *)
Definition score_all (deterministic : bool) (group_inputs : list (Group * (num * num * num)))
  : M (list RiskResult) :=
  rss <- mapM (score_group deterministic) group_inputs ;;
  ret (concat rss).

(** One line of the Auto branch:
    [random.randint(0,200), round(random.uniform(0,10),1), random.randint(0,5)]. *)
Definition auto_reading : M (num * num * num) :=
  r <- randint 0 200 ;;
  v <- uniform (of_int 0) (of_int 10) ;;
  b <- randint 0 5 ;;
  ret (of_int r, round1 v, of_int b).

(** The dict appended to [history]. *)
Definition history_record (rain1 vib1 blast1 rain2 vib2 blast2 : num)
  (results : list RiskResult) : PyDict :=
  dict_update
    (dict_of [("rain1", rain1); ("vib1", vib1); ("blast1", blast1);
              ("rain2", rain2); ("vib2", vib2); ("blast2", blast2)])
    (dict_of (map (fun r => (Bench r, Score r)) results)).

(** [history.append(rec)], then [history.pop(0)] when longer than 200. *)
Definition push (rec : PyDict) (h : list PyDict) : list PyDict :=
  let h := h ++ [rec] in
  if (200 <? length h)%nat then tl h else h.

Definition append_history (rec : PyDict) : M unit := fun w =>
  Some (tt, set_history (push rec (history w)) w).

Definition get_history : M (list PyDict) := fun w => Some (history w, w).

Definition get_dem_overlay : M (option (string * ((num * num) * (num * num)))) :=
  fun w => Some (dem_overlay w, w).

(** A column of [pd.DataFrame(history)]: a record without the key leaves a
    gap. *)
Definition column (c : string) (h : list PyDict) : list (option num) :=
  map (dict_get c) h.

(** A line chart: its title and its named traces. *)
Record Figure : Type := {
  fig_title : string;
  fig_traces : list (string * list (option num))
}.

Definition env_fig (title rain vib blast : string) (h : list PyDict) : Figure :=
  {| fig_title := title;
     fig_traces := [("Rain", column rain h); ("Vibration", column vib h);
                    ("Blast", column blast h)] |}.

Definition bench_fig (h : list PyDict) : Figure :=
  {| fig_title := "Bench Risk Trend";
     fig_traces := map (fun b => (b_id b, column (b_id b) h)) benches |}.

(** A record of the table: a result and its [Status] glyph. *)
Record TableRow : Type := { row_result : RiskResult; Status : string }.

Definition table_columns : list (string * string) :=
  map (fun i => (i, i))
      ["Bench"; "Slope"; "Rainfall"; "Vibration"; "Blast"; "Score"; "Risk"; "Status"].

(** What is added to the folium map. *)
Inductive MapItem : Type :=
| PolyLine (locations : list (num * num)) (color : string) (weight : Z) (opacity : num)
| Marker (location : num * num) (tooltip : string)
| Circle (location : num * num) (radius : Z) (color : string) (fill_opacity : num)
         (tooltip : string)
| DivMarker (location : num * num) (html : string)
| ImageOverlay (image : string) (bounds : (num * num) * (num * num)) (opacity : num)
| LayerControl.

(** [sum(l)], which starts from the integer 0 and adds the items in
    order.  On floats CPython compensates the rounding errors of the
    additions from version 3.12 on: that sum is [f_sum_compensated]
    below. *)
Definition py_sum (l : list num) : num := fold_left nadd l (of_int 0).

(** [[sum(lats)/len(lats), sum(lons)/len(lons)]]; an empty list raises. *)
Definition centroid (coords : list (num * num)) : option (num * num) :=
  let lats := map fst coords in
  let lons := map snd coords in
  match coords with
  | [] => None
  | _ => Some (py_sum lats / of_int (Z.of_nat (length lats)),
               py_sum lons / of_int (Z.of_nat (length lons)))
  end.

Definition layer_tooltip (bench_id : string) (layer : Z) (risk : RiskLevel) (score : num)
  : string :=
  (bench_id ++ " - Layer " ++ show_nat (layer + 1) ++ ": " ++ risk_label risk
   ++ " (" ++ format_1f score ++ ")")%string.

(** The circle drawn for one scorer answer. *)
Definition circle_of (bench : BenchRec) (center : num * num) (layer : Z)
  (rs : RiskLevel * num) : MapItem :=
  Circle center (30 * (layer + 1)) (risk_color (fst rs)) (literal 5 10)
         (layer_tooltip (b_id bench) layer (fst rs) (snd rs)).

(** The body of [for layer in range(3)]. *)
Definition layer_circle (deterministic : bool) (r : RiskResult) (bench : BenchRec)
  (center : num * num) (layer : Z) : M MapItem :=
  rs <- compute_score (Rainfall r) (Vibration r) (Blast r)
                      (b_slope bench + layer * 2) deterministic ;;
  ret (circle_of bench center layer rs).

(** The body of [for r in results] in the map part. *)
Definition bench_layers (deterministic : bool) (r : RiskResult) : M (list MapItem) :=
  bench <- lift_option (find_bench (Bench r)) ;;
  center <- lift_option (centroid (b_coords bench)) ;;
  circles <- mapM (layer_circle deterministic r bench center) [0; 1; 2]%Z ;;
  ret (circles ++ [DivMarker center ("<b>" ++ b_id bench ++ "</b>")%string]).

(** Rivers, haul road and hauler, in the order they are added. *)
Definition furniture : list MapItem :=
  map (fun line => PolyLine line "#1E88E5" 3 (literal 8 10)) rivers
  ++ [PolyLine haul_road "#666" 5 (literal 9 10); Marker truck_xy "Hauler"].

Definition dem_items (show_dem : bool)
  (dem : option (string * ((num * num) * (num * num)))) : list MapItem :=
  match dem with
  | Some (path, bounds) =>
      if show_dem then [ImageOverlay path bounds (literal 6 10); LayerControl] else []
  | None => []
  end.

(** The six outputs of the callback; the map stands for its HTML. *)
Record Outputs : Type := {
  env1_fig : Figure;
  env2_fig : Figure;
  bench_trend : Figure;
  data : list TableRow;
  columns : list (string * string);
  map_items : list MapItem
}.

(** The readings of the tick: drawn in Auto mode, the arguments otherwise. *)
Definition tick_readings (rain1 vib1 blast1 rain2 vib2 blast2 : num) (mode : string)
  : M ((num * num * num) * (num * num * num)) :=
  if String.eqb mode "Auto"
  then (a <- auto_reading ;; b <- auto_reading ;; ret (a, b))
  else ret ((rain1, vib1, blast1), (rain2, vib2, blast2)).

(** The values returned at the end of the callback. *)
Definition outputs_of (h : list PyDict) (results : list RiskResult)
  (layers : list (list MapItem)) (show_dem : bool)
  (dem : option (string * ((num * num) * (num * num)))) : Outputs :=
  {| env1_fig := env_fig "Environmental Inputs - Group 1" "rain1" "vib1" "blast1" h;
     env2_fig := env_fig "Environmental Inputs - Group 2" "rain2" "vib2" "blast2" h;
     bench_trend := bench_fig h;
     data := map (fun r => {| row_result := r; Status := risk_icon (Risk r) |}) results;
     columns := table_columns;
     map_items := furniture ++ concat layers ++ dem_items show_dem dem |}.

Definition update_dashboard (rain1 vib1 blast1 rain2 vib2 blast2 : num)
  (n_intervals : Z) (show_dem : bool) (mode : string) : M Outputs :=
  let deterministic := String.eqb mode "Manual" in
  inputs <- tick_readings rain1 vib1 blast1 rain2 vib2 blast2 mode ;;
  let '((rain1, vib1, blast1), (rain2, vib2, blast2)) := inputs in
  g0 <- lift_option (nth_error groups 0) ;;
  g1 <- lift_option (nth_error groups 1) ;;
  results <- score_all deterministic
               [(g0, (rain1, vib1, blast1)); (g1, (rain2, vib2, blast2))] ;;
  _ <- append_history (history_record rain1 vib1 blast1 rain2 vib2 blast2 results) ;;
  h <- get_history ;;
  _ <- (match results with [] => raise | _ => ret tt end) ;;
  layers <- mapM (bench_layers deterministic) results ;;
  dem <- get_dem_overlay ;;
  ret (outputs_of h results layers show_dem dem).

(* ================================================================== *)
(** ** The export: [export_csv] *)
(* ================================================================== *)

(** What [dcc.send_data_frame] hands to the browser. *)
Record Download : Type := { content : string; filename : string }.

(** [export_csv]: the frame is built from the global [history] and
    written with the defaults of [to_csv]; the argument [n] is not read.
    [to_csv] stands for [lambda h: pd.DataFrame(h).to_csv()]. *)
Definition export_csv (to_csv : list PyDict -> string) (n : Z) : M Download :=
  h <- get_history ;;
  ret {| content := to_csv h; filename := "risk_report.csv" |}.

End Engine.

Arguments PyDict : clear implicits.
Arguments World : clear implicits.
Arguments M : clear implicits.
Arguments BenchRec : clear implicits.
Arguments RiskResult : clear implicits.
Arguments Figure : clear implicits.
Arguments TableRow : clear implicits.
Arguments MapItem : clear implicits.
Arguments Outputs : clear implicits.

(* ================================================================== *)
(** ** Reading the outputs *)
(* ================================================================== *)

Section Views.

Context {num : Type} `{PyNum num}.

Local Open Scope py_scope.

(** [rs] is what the scorer answers on these arguments in some state of
    the world. *)
Definition scorer_answer (rain vib blast : num) (slope : Z) (deterministic : bool)
  (rs : RiskLevel * num) : Prop :=
  exists w w' : World num,
    compute_score rain vib blast slope deterministic w = Some (rs, w').

(** [r] is a result for the bench [bench_id] under [reading]: the reading
    copied through, the slope of the catalog, and a scorer answer on
    them, its score kept to one decimal. *)
Definition result_for (deterministic : bool) (reading : num * num * num)
  (bench_id : string) (r : RiskResult num) : Prop :=
  exists (bench : BenchRec num) (rs : RiskLevel * num),
    find_bench bench_id = Some bench
    /\ scorer_answer (fst (fst reading)) (snd (fst reading)) (snd reading)
                     (b_slope bench) deterministic rs
    /\ r = {| Bench := bench_id; Slope := b_slope bench;
              Rainfall := fst (fst reading); Vibration := snd (fst reading);
              Blast := snd reading; Score := round1 (snd rs); Risk := fst rs |}.

(** [item] is the circle of layer [layer] of the result [r]: radius
    [30 * (layer + 1)], the colour of the level, and a tooltip made of
    the bench id, the layer number counted from 1, the level and the
    score with one decimal, level and score being what the scorer answers
    on the reading of [r] with the slope raised by [2 * layer]. *)
Definition layer_of (deterministic : bool) (r : RiskResult num) (bench : BenchRec num)
  (center : num * num) (layer : Z) (item : MapItem num) : Prop :=
  exists (risk : RiskLevel) (score : num),
    scorer_answer (Rainfall r) (Vibration r) (Blast r) (b_slope bench + 2 * layer)
                  deterministic (risk, score)
    /\ item = Circle center (30 * (layer + 1)) (risk_color risk) (literal 5 10)
                     (b_id bench ++ " - Layer " ++ show_nat (layer + 1) ++ ": "
                      ++ risk_label risk ++ " (" ++ format_1f score ++ ")")%string.

(** [items] is what the map part adds for the result [r]: the circles of
    layers 0, 1 and 2 around the centre computed from the listed points
    of the bench polygon, then the label of the bench. *)
Definition layers_for (deterministic : bool) (r : RiskResult num)
  (items : list (MapItem num)) : Prop :=
  exists (bench : BenchRec num) (center : num * num) (circles : list (MapItem num)),
    find_bench (Bench r) = Some bench
    /\ centroid (b_coords bench) = Some center
    /\ Forall2 (layer_of deterministic r bench center) [0; 1; 2]%Z circles
    /\ items = circles ++ [DivMarker center ("<b>" ++ b_id bench ++ "</b>")%string].

(** A reading as the Auto branch draws it: an integer rainfall of 0..200,
    a vibration [round(uniform(0, 10), 1)], an integer blast count of 0..5. *)
Definition drawn_reading (rd : num * num * num) : Prop :=
  exists (r b : Z) (g : Rng) (i : nat),
    (0 <= r <= 200)%Z /\ (0 <= b <= 5)%Z
    /\ rd = (of_int r,
             round1 (of_int 0 + (of_int 10 - of_int 0) * unit_at g i),
             of_int b).

(** The readings a tick works with. *)
Definition readings_for (mode : string) (arg1 arg2 rd1 rd2 : num * num * num) : Prop :=
  if String.eqb mode "Auto" then drawn_reading rd1 /\ drawn_reading rd2
  else rd1 = arg1 /\ rd2 = arg2.

(** One result per bench, Bench 1 and Bench 2 under the reading of the
    first group, then Bench 3 and Bench 4 under that of the second. *)
Definition results_for (deterministic : bool) (rd1 rd2 : num * num * num)
  (results : list (RiskResult num)) : Prop :=
  exists r1 r2 r3 r4 : RiskResult num,
    results = [r1; r2; r3; r4]
    /\ result_for deterministic rd1 "Bench 1" r1
    /\ result_for deterministic rd1 "Bench 2" r2
    /\ result_for deterministic rd2 "Bench 3" r3
    /\ result_for deterministic rd2 "Bench 4" r4.

(** The keys of every record of the history, in order. *)
Definition record_fields : list string :=
  ["rain1"; "vib1"; "blast1"; "rain2"; "vib2"; "blast2";
   "Bench 1"; "Bench 2"; "Bench 3"; "Bench 4"].

(** A computation that never raises, changes nothing but the random
    source, and returns a value satisfying [P]. *)
Definition draws {A : Type} (c : M num A) (P : A -> Prop) : Prop :=
  forall w : World num, exists (a : A) (g : Rng), c w = Some (a, set_rng g w) /\ P a.

(** [reached recs w]: the process is in the world [w] after ticks that
    appended the records [recs], oldest first.  It starts with an empty
    history; a callback that returned has appended the record now last in
    the history. *)
Inductive reached : list (PyDict num) -> World num -> Prop :=
| reached_init : forall g dem, reached [] (initial_world g dem)
| reached_tick : forall recs w rain1 vib1 blast1 rain2 vib2 blast2 n_intervals show_dem
                        mode out w',
    reached recs w ->
    update_dashboard rain1 vib1 blast1 rain2 vib2 blast2 n_intervals show_dem mode w
    = Some (out, w') ->
    reached (recs ++ [last (history w') []]) w'.

End Views.

(** The world after a Manual tick and an Auto tick from the start. *)
Definition world_after {num : Type} `{PyNum num} (c : M num (Outputs num))
  (w : World num) : World num :=
  match c w with
  | Some (_, w') => w'
  | None => w
  end.

Definition sample_world : World Q :=
  world_after (update_dashboard 0%Q 0%Q 0%Q 0%Q 0%Q 0%Q 1 false "Auto")
    (world_after (update_dashboard 10%Q 1%Q 0%Q 200%Q 10%Q 5%Q 0 false "Manual")
       (initial_world sample_rng None)).


(* ================================================================== *)
(** ** The helpers on strings and the other callbacks *)
(* ================================================================== *)

(** [risk_color] on the string it receives: a lookup in the dict of the
    three levels, with the colour of "Low" for any other string. *)
Definition risk_color_of (level : string) : string :=
  if String.eqb level "Low" then "#4CAF50"
  else if String.eqb level "Medium" then "#F4C430"
  else if String.eqb level "High" then "#E53935"
  else "#4CAF50".

(** [risk_icon] on the string it receives. *)
Definition risk_icon_of (level : string) : string :=
  if String.eqb level "Low" then "🟢"
  else if String.eqb level "Medium" then "🟡"
  else if String.eqb level "High" then "🔴"
  else "🟢".

(** The three outputs of [toggle_mode]: the [display] style of the manual
    controls, that of the auto controls, and the [disabled] flag of the
    timer. *)
Record ModeView : Type := {
  manual_display : string;
  auto_display : string;
  timer_disabled : bool
}.

Definition toggle_mode (mode : string) : ModeView :=
  if String.eqb mode "Manual"
  then {| manual_display := "block"; auto_display := "none"; timer_disabled := true |}
  else {| manual_display := "none"; auto_display := "block"; timer_disabled := false |}.

(** [update_interval]: seconds to milliseconds. *)
Definition update_interval (value : Z) : Z := (value * 1000)%Z.

(** The draws a tick makes in each mode: six for the readings of Auto
    mode, and two for each of the four primary and twelve layer calls of
    the scorer outside Manual mode. *)
Definition draws_of_mode (mode : string) : nat :=
  (if String.eqb mode "Auto" then 6 else 0)
  + (if String.eqb mode "Manual" then 0 else 32).

(** A computation that never raises, makes exactly [n] draws, changes
    nothing else, and returns a value satisfying [P]. *)
Definition draws_n {num : Type} `{PyNum num} {A : Type} (n : nat) (c : M num A)
  (P : A -> Prop) : Prop :=
  forall w : World num,
    exists a : A, c w = Some (a, set_rng (Nat.iter n advance (rng w)) w) /\ P a.

(** The draws of one call of the scorer. *)
Definition scorer_draws (deterministic : bool) : nat := if deterministic then 0 else 2.

(** The source used to show a score just under a threshold. *)
Definition edge_rng : Rng := {| bits := fun _ => 4494592428115755%Z; drawn := 0 |}.

(* ================================================================== *)
(** ** Rounding to one decimal: the specification *)
(* ================================================================== *)

(** [k] is the integer nearest to [q], the even one of the two when [q]
    lies halfway. *)
Definition nearest_integer (q : Q) (k : Z) : Prop :=
  (inject_Z k - (1 # 2) <= q /\ q <= inject_Z k + (1 # 2))%Q
  /\ ((q == inject_Z k - (1 # 2) \/ q == inject_Z k + (1 # 2))%Q -> Z.even k = true).

(** [y] is the rational [q] rounded to one decimal: [k/10] for the
    integer [k] nearest to [10 * q]. *)
Definition Q_rounded_to_tenths (q y : Q) : Prop :=
  exists k : Z, nearest_integer (q * 10) k /\ y = k # 10.

(** [y] is the binary64 [x] rounded to one decimal.  Below 2^49 it is the
    binary64 of the decimal [k/10], written [literal k 10], for the
    integer [k] nearest to ten times the exact magnitude of [x], with the
    sign of [x].  From 2^49 on neighbouring binary64 numbers are more than
    0.1 apart, and [y] is [x]; so it is for an infinity and for a NaN. *)
Definition f_rounded_to_tenths (x y : float) : Prop :=
  match Prim2SF x with
  | S754_finite s m e =>
      if (e <? -3)%Z
      then exists k : Z,
             nearest_integer (magnitude m e * 10) k
             /\ y = (if s then PrimFloat.opp (literal k 10) else literal k 10)
      else y = x
  | _ => y = x
  end.

(* ================================================================== *)
(** ** The centre of a polygon: the specification, and summation *)
(* ================================================================== *)

(** The arithmetic mean of a list of rationals. *)
Definition Q_mean (l : list Q) : Q :=
  (fold_right Qplus 0 l / inject_Z (Z.of_nat (length l)))%Q.

(** Two points with equal coordinates. *)
Definition same_point (p q : Q * Q) : bool :=
  Qeq_bool (fst p) (fst q) && Qeq_bool (snd p) (snd q).

(** The vertices of a polygon listed as a ring: the listed points, without
    the last one when it closes the ring by repeating the first. *)
Definition polygon_vertices (coords : list (Q * Q)) : list (Q * Q) :=
  match coords with
  | first :: _ :: _ =>
      if same_point first (last coords first) then removelast coords else coords
  | _ => coords
  end.

(** The centre as mean of the vertex coordinates. *)
Definition vertex_mean (coords : list (Q * Q)) : Q * Q :=
  (Q_mean (map fst (polygon_vertices coords)), Q_mean (map snd (polygon_vertices coords))).

(** [math.isfinite]. *)
Definition f_is_finite (x : float) : bool :=
  match Prim2SF x with
  | S754_zero _ | S754_finite _ _ _ => true
  | _ => false
  end.

(** [sum] on floats from CPython 3.12 on (Neumaier's summation): the
    running sum [f] and the compensation [c] of the rounding errors,
    which is added at the end when it is finite and not zero.  The sum
    starts from the integer 0 plus the first item. *)
Definition compensated_step (fc : float * float) (x : float) : float * float :=
  let '(f, c) := fc in
  let t := (f + x)%float in
  (t, if PrimFloat.leb (PrimFloat.abs x) (PrimFloat.abs f)
      then (c + ((f - t) + x))%float
      else (c + ((x - t) + f))%float).

(** [sum(l)] in binary64 from CPython 3.12 on. *)
Definition f_sum_compensated (l : list float) : float :=
  match l with
  | [] => of_int 0
  | x0 :: rest =>
      let '(f, c) := fold_left compensated_step rest ((of_int 0 + x0)%float, 0%float) in
      if negb (PrimFloat.eqb c 0) && f_is_finite c then (f + c)%float else f
  end.

(** [centroid] in binary64 under the compensated sum. *)
Definition centroid_compensated (coords : list (float * float)) : option (float * float) :=
  match coords with
  | [] => None
  | _ => Some ((f_sum_compensated (map fst coords)
                / of_int (Z.of_nat (length (map fst coords))))%float,
               (f_sum_compensated (map snd coords)
                / of_int (Z.of_nat (length (map snd coords))))%float)
  end.

(** [x] has an exact value within [eps] of [q]. *)
Definition f_within (eps : Q) (x : float) (q : Q) : bool :=
  match f_exact x with
  | Some v => Qle_bool (q - eps) v && Qle_bool v (q + eps)
  | None => false
  end.

(* ================================================================== *)
(** ** The slider grid in binary64 *)
(* ================================================================== *)

(** The readings the sliders of the page can send: rainfall 0..200 by 1,
    vibration 0..10 by 0.1, blast events 0..5 by 1. *)
Definition upto (n : nat) : list Z := map Z.of_nat (seq 0 (S n)).

(** The deterministic score and the thresholds with their constants
    already in binary64. *)
Definition fast_score (rain vib blast half : float) : float :=
  (half + rain * 0.4 + (vib + blast * 2) * 5 + blast * 3 + 0)%float.

Definition fast_classify (score : float) : RiskLevel :=
  if (score <? 40)%float then Low
  else if (score <? 70)%float then Medium
  else High.



(** The deterministic score, in tenths, of the bench of slope [slope]
    under the slider reading of rainfall [a], vibration [c/10] and blast
    count [b]; and the level of a score of [t] tenths. *)
Definition exact_tenths (slope a c b : Z) : Z := (5 * slope + 4 * a + 5 * c + 130 * b)%Z.

Definition level_of_tenths (t : Z) : RiskLevel :=
  if (t <? 400)%Z then Low else if (t <? 700)%Z then Medium else High.

Definition level_eqb (x y : RiskLevel) : bool := (severity x =? severity y)%nat.

(** The checks below run on the 63-bit integers of the kernel. *)
Definition int_of (z : Z) : PrimInt63.int := Uint63Axioms.of_Z z.

Definition i1 : PrimInt63.int := Eval vm_compute in int_of 1.
Definition i2 : PrimInt63.int := Eval vm_compute in int_of 2.
Definition i20 : PrimInt63.int := Eval vm_compute in int_of 20.
Definition i400 : PrimInt63.int := Eval vm_compute in int_of 400.
Definition i700 : PrimInt63.int := Eval vm_compute in int_of 700.
Definition i2106 : PrimInt63.int := Eval vm_compute in int_of 2106.
Definition i2150 : PrimInt63.int := Eval vm_compute in int_of 2150.
Definition i2154 : PrimInt63.int := Eval vm_compute in int_of 2154.
Definition i8192 : PrimInt63.int := Eval vm_compute in int_of 8192.
Definition i2p52 : PrimInt63.int := Eval vm_compute in int_of (2 ^ 52).
Definition i2p53 : PrimInt63.int := Eval vm_compute in int_of (2 ^ 53).

(** [x] is a positive binary64 of 16 or more and below 2^49 whose exact
    value, times ten, is less than a half away from [t], itself below
    8192: with [x = mant * 2^-k], [|20 * mant - 2 * t * 2^k| < 2^k]. *)
Definition tenths_are (x : float) (t : PrimInt63.int) : bool :=
  negb (PrimFloat.is_nan x) && negb (PrimFloat.is_zero x)
  && negb (PrimFloat.is_infinity x) && negb (PrimFloat.get_sign x)
  && (let (r, se) := frshiftexp x in
      let mant := normfr_mantissa r in
      let k := PrimInt63.sub i2154 se in
      let tt := PrimInt63.lsl (PrimInt63.mul i2 t) k in
      let half := PrimInt63.lsl i1 k in
      let m20 := PrimInt63.mul i20 mant in
      PrimInt63.leb i2106 se && PrimInt63.leb se i2150
      && PrimInt63.leb i2p52 mant && PrimInt63.ltb mant i2p53
      && PrimInt63.ltb t i8192
      && PrimInt63.ltb m20 (PrimInt63.add tt half)
      && PrimInt63.ltb tt (PrimInt63.add m20 half)).

Definition level_of_tenths_int (t : PrimInt63.int) : RiskLevel :=
  if PrimInt63.ltb t i400 then Low else if PrimInt63.ltb t i700 then Medium else High.

(** The values [0..n] of a slider, each with the binary64 it is sent as
    and with its share of the score in tenths. *)
Definition indexed (f : Z -> float) (weight : Z) (n : nat)
  : list (Z * float * PrimInt63.int) :=
  map (fun z => (z, f z, int_of (weight * z))) (upto n).

(** The check of one bench and reading: the binary64 score rounds to the
    exact score and has its level. *)
Definition row_agrees (t0 : PrimInt63.int) (half : float)
  (a c b : Z * float * PrimInt63.int) : bool :=
  let raw := fast_score (snd (fst a)) (snd (fst c)) (snd (fst b)) half in
  let t := PrimInt63.add (PrimInt63.add (PrimInt63.add t0 (snd a)) (snd c)) (snd b) in
  tenths_are raw t && level_eqb (fast_classify raw) (level_of_tenths_int t).

Definition table_agrees (slope : Z) : bool :=
  let half := (f_of_int slope / 2)%float in
  let t0 := int_of (5 * slope) in
  let rains := indexed f_of_int 4 200 in
  let vibs := indexed (fun n => f_literal n 10) 5 100 in
  let blasts := indexed f_of_int 130 5 in
  forallb (fun a => forallb (fun c => forallb (row_agrees t0 half a c) blasts) vibs) rains.

(* ================================================================== *)
(** ** Facts about the numbers *)
(* ================================================================== *)

Lemma Qltb_lt (x y : Q) : Qltb x y = true <-> (x < y)%Q.
Proof.
  unfold Qltb. rewrite negb_true_iff, <- not_true_iff_false, Qle_bool_iff.
  split; [apply Qnot_le_lt | apply Qlt_not_le].
Qed.

Lemma Qltb_ge (x y : Q) : Qltb x y = false <-> (y <= x)%Q.
Proof.
  unfold Qltb. rewrite negb_false_iff. apply Qle_bool_iff.
Qed.

(** The variates of the source lie in [0, 1). *)
Lemma unit_at_range (g : Rng) (i : nat) :
  (0 <= unit_at (num := Q) g i)%Q /\ (unit_at (num := Q) g i < 1)%Q.
Proof.
  unfold unit_at; cbn [of_int ndiv PyNum_Q].
  assert (Hm : (0 <= bits g i mod 2 ^ 53 < 2 ^ 53)%Z) by (apply Z.mod_pos_bound; lia).
  set (k := (bits g i mod 2 ^ 53)%Z) in *.
  assert (Hp : (0 < inject_Z (2 ^ 53))%Q) by (unfold Qlt; cbn; lia).
  split.
  - apply Qle_shift_div_l; [exact Hp |].
    rewrite Qmult_0_l. unfold Qle; cbn. lia.
  - apply Qlt_shift_div_r; [exact Hp |].
    rewrite Qmult_1_l. unfold Qlt; cbn. lia.
Qed.

(* ================================================================== *)
(** ** The scorer *)
(* ================================================================== *)

Section ScorerFacts.

Context {num : Type} `{PyNum num}.

(** In deterministic mode the scorer draws nothing and leaves the world
    as it found it. *)
Lemma compute_score_deterministic (rain vib blast : num) (slope : Z) (w : World num) :
  compute_score rain vib blast slope true w
  = Some ((classify (score_of rain vib blast slope (literal 2 1) (of_int 0)),
           score_of rain vib blast slope (literal 2 1) (of_int 0)), w).
Proof. reflexivity. Qed.

(** In stochastic mode it makes two draws: the multiplier, then the noise. *)
Lemma compute_score_stochastic (rain vib blast : num) (slope : Z) (w : World num) :
  let g := rng w in
  let mult := nadd (literal 15 10)
                   (nmul (nsub (literal 3 1) (literal 15 10)) (unit_at g (drawn g))) in
  let noise := nadd (of_int (-5))
                    (nmul (nsub (of_int 5) (of_int (-5))) (unit_at g (S (drawn g)))) in
  compute_score rain vib blast slope false w
  = Some ((classify (score_of rain vib blast slope mult noise),
           score_of rain vib blast slope mult noise),
          set_rng (advance (advance g)) w).
Proof. reflexivity. Qed.

Lemma set_rng_same (w : World num) : set_rng (rng w) w = w.
Proof. destruct w; reflexivity. Qed.

(** The scorer never raises, and touches nothing but the generator. *)
Lemma compute_score_total (rain vib blast : num) (slope : Z) (det : bool) (w : World num) :
  exists rs g, compute_score rain vib blast slope det w = Some (rs, set_rng g w).
Proof.
  destruct det.
  - rewrite compute_score_deterministic. eexists; exists (rng w).
    now rewrite set_rng_same.
  - rewrite compute_score_stochastic. do 2 eexists. reflexivity.
Qed.

End ScorerFacts.

(** C1. In deterministic mode the scorer returns
    slope/2 + rainfall*0.4 + (vibration + blast*2.0)*5 + blast*3, the noise
    being 0, and makes no draw.  In stochastic mode the same formula holds
    with the multiplier [1.5 + (3.0 - 1.5) * u1] and the noise
    [-5 + (5 - -5) * u2], where [u1] and [u2] are the next two variates of
    the random source; they lie in [1.5, 3.0] and in [-5, 5]. *)
Theorem C1_score_formula :
  forall (rain vib blast : Q) (slope : Z) (w : World Q),
    (exists score : Q,
        compute_score rain vib blast slope true w = Some ((classify score, score), w)
        /\ score == inject_Z slope / 2 + rain * 0.4 + (vib + blast * 2.0) * 5 + blast * 3)%Q
    /\
    (exists score mult noise : Q,
        compute_score rain vib blast slope false w
        = Some ((classify score, score), set_rng (advance (advance (rng w))) w)
        /\ mult = 1.5 + (3.0 - 1.5) * unit_at (rng w) (drawn (rng w))
        /\ noise = inject_Z (-5) + (inject_Z 5 - inject_Z (-5))
                                   * unit_at (rng w) (S (drawn (rng w)))
        /\ 1.5 <= mult <= 3.0
        /\ -5 <= noise <= 5
        /\ score == inject_Z slope / 2 + rain * 0.4 + (vib + blast * mult) * 5
                    + blast * 3 + noise)%Q.
Proof.
  intros rain vib blast slope w. split.
  - eexists. split; [apply compute_score_deterministic |].
    unfold score_of; cbn [of_int literal nadd nsub nmul ndiv PyNum_Q].
    change (inject_Z 2) with 2%Q. change (inject_Z 5) with 5%Q.
    change (inject_Z 3) with 3%Q. change (inject_Z 0) with 0%Q.
    field.
  - do 3 eexists. split; [apply compute_score_stochastic |].
    split; [reflexivity |]. split; [reflexivity |].
    destruct (unit_at_range (rng w) (drawn (rng w))) as [Ha Hb].
    destruct (unit_at_range (rng w) (S (drawn (rng w)))) as [Hc Hd].
    set (u1 := unit_at (rng w) (drawn (rng w))) in *.
    set (u2 := unit_at (rng w) (S (drawn (rng w)))) in *.
    change (inject_Z (-5)) with (-5)%Q. change (inject_Z 5) with 5%Q.
    split; [split; lra |]. split; [split; lra |].
    unfold score_of; cbn [of_int literal nadd nsub nmul ndiv PyNum_Q].
    change (inject_Z 2) with 2%Q. change (inject_Z 5) with 5%Q.
    change (inject_Z 3) with 3%Q. change (inject_Z (-5)) with (-5)%Q.
    fold u1 u2. field.
Qed.

Lemma classify_spec (s : Q) :
  ((classify s = Low <-> s < 40)
   /\ (classify s = Medium <-> 40 <= s /\ s < 70)
   /\ (classify s = High <-> 70 <= s))%Q.
Proof.
  unfold classify; cbn [of_int nltb PyNum_Q].
  change (inject_Z 40) with 40%Q. change (inject_Z 70) with 70%Q.
  destruct (Qltb s 40) eqn:E40; destruct (Qltb s 70) eqn:E70;
    try apply Qltb_lt in E40; try apply Qltb_ge in E40;
    try apply Qltb_lt in E70; try apply Qltb_ge in E70;
    repeat split; intros; try discriminate; try lra.
Qed.

(** C2. The classification returned with a score [s] is Low exactly when
    s < 40, Medium exactly when 40 <= s < 70 and High exactly when
    s >= 70; so the three ranges cover every score without gap or
    overlap, and 40 and 70 themselves are Medium and High. *)
Theorem C2_classification_thresholds :
  (forall (rain vib blast : Q) (slope : Z) (deterministic : bool) (w : World Q),
      exists (risk : RiskLevel) (score : Q) (w' : World Q),
        compute_score rain vib blast slope deterministic w = Some ((risk, score), w')
        /\ (risk = Low <-> score < 40)
        /\ (risk = Medium <-> 40 <= score /\ score < 70)
        /\ (risk = High <-> 70 <= score))%Q
  /\ (forall s : Q, s < 40 \/ (40 <= s /\ s < 70) \/ 70 <= s)%Q
  /\ (forall s : Q, ~ (s < 40 /\ 40 <= s) /\ ~ (s < 70 /\ 70 <= s))%Q
  /\ classify 40%Q = Medium
  /\ classify 70%Q = High
  /\ (forall w : World Q, exists s : Q,
         compute_score 0%Q 0%Q 0%Q 80 true w = Some ((Medium, s), w) /\ s == 40)%Q
  /\ (forall w : World Q, exists s : Q,
         compute_score 0%Q 0%Q 0%Q 140 true w = Some ((High, s), w) /\ s == 70)%Q.
Proof.
  split; [| split; [| split; [| split; [| split; [| split]]]]].
  - intros rain vib blast slope det w.
    destruct (compute_score_total rain vib blast slope det w) as [[risk score] [g Hg]].
    exists risk, score, (set_rng g w). split; [exact Hg |].
    assert (Hc : risk = classify score).
    { destruct det.
      - rewrite compute_score_deterministic in Hg. now inversion Hg.
      - rewrite compute_score_stochastic in Hg. now inversion Hg. }
    rewrite Hc. apply classify_spec.
  - intros s. destruct (Qlt_le_dec s 40); [now left |].
    destruct (Qlt_le_dec s 70); [right; left; now split | right; now right].
  - intros s. split; intros [Ha Hb]; lra.
  - reflexivity.
  - reflexivity.
  - intros w. exists (score_of 0%Q 0%Q 0%Q 80 (literal 2 1) (of_int 0)).
    split; [reflexivity | now vm_compute].
  - intros w. exists (score_of 0%Q 0%Q 0%Q 140 (literal 2 1) (of_int 0)).
    split; [reflexivity | now vm_compute].
Qed.

(** C3. With [deterministic = true] the scorer is a function of its four
    readings alone: its answer is the same in every state of the world,
    and it leaves the world, hence the random source, untouched.  A
    Manual-mode tick never raises and leaves the random source as it was,
    and its table does not depend on the state of the source. *)
Theorem C3_manual_mode_is_pure :
  forall (num : Type) (P : PyNum num) (rain vib blast : num),
    (forall slope : Z, exists rs : RiskLevel * num,
        forall w : World num, compute_score rain vib blast slope true w = Some (rs, w))
    /\ (forall (rain2 vib2 blast2 : num) (n_intervals : Z) (show_dem : bool),
          exists rows : list (TableRow num),
            forall w : World num, exists (out : Outputs num) (w' : World num),
              update_dashboard rain vib blast rain2 vib2 blast2 n_intervals show_dem
                               "Manual" w = Some (out, w')
              /\ data out = rows
              /\ rng w' = rng w
              /\ drawn (rng w') = drawn (rng w)).
Proof.
  intros num P rain vib blast. split.
  - intros slope. eexists. intros w. apply compute_score_deterministic.
  - intros rain2 vib2 blast2 n sd. eexists. intros w.
    do 2 eexists. split; [reflexivity |].
    split; [unfold outputs_of; cbn [data]; reflexivity |]. split; reflexivity.
Qed.

(* ================================================================== *)
(** ** The stages of a tick *)
(* ================================================================== *)

Section TickFacts.

Context {num : Type} `{PyNum num}.

Lemma set_rng_set_rng (g g' : Rng) (w : World num) :
  set_rng g' (set_rng g w) = set_rng g' w.
Proof. reflexivity. Qed.

Lemma bind_some {A B} (c : M num A) (k : A -> M num B) (w w' : World num) (a : A) :
  c w = Some (a, w') -> bind c k w = k a w'.
Proof. intros E. unfold bind. now rewrite E. Qed.

Lemma draws_ret {A} (a : A) (P : A -> Prop) : P a -> draws (num := num) (ret a) P.
Proof.
  intros Ha w. exists a, (rng w). rewrite set_rng_same. now split.
Qed.

Lemma draws_bind {A B} (c : M num A) (k : A -> M num B) (P : A -> Prop) (Q : B -> Prop) :
  draws c P -> (forall a, P a -> draws (k a) Q) -> draws (bind c k) Q.
Proof.
  intros Hc Hk w.
  destruct (Hc w) as (a & g & E & Pa).
  destruct (Hk a Pa (set_rng g w)) as (b & g' & E' & Qb).
  exists b, g'. rewrite (bind_some _ _ _ _ _ E), E'. now split.
Qed.

Lemma draws_weaken {A} (c : M num A) (P Q : A -> Prop) :
  draws c P -> (forall a, P a -> Q a) -> draws c Q.
Proof.
  intros Hc HPQ w. destruct (Hc w) as (a & g & E & Pa).
  exists a, g. split; [exact E | now apply HPQ].
Qed.

Lemma draws_lift_option {A} (o : option A) (a : A) (P : A -> Prop) :
  o = Some a -> P a -> draws (num := num) (lift_option o) P.
Proof. intros -> Pa. now apply draws_ret. Qed.

Lemma draws_mapM {A B} (f : A -> M num B) (R : A -> B -> Prop) (l : list A) :
  (forall a, In a l -> draws (f a) (R a)) -> draws (mapM f l) (Forall2 R l).
Proof.
  induction l as [| a l IH]; intros Hf.
  - apply draws_ret. constructor.
  - cbn [mapM]. apply draws_bind with (P := R a).
    + apply Hf. now left.
    + intros b Rb. apply draws_bind with (P := Forall2 R l).
      * apply IH. intros a' Ha'. apply Hf. now right.
      * intros bs Rbs. apply draws_ret. now constructor.
Qed.

Lemma draws_compute_score (rain vib blast : num) (slope : Z) (det : bool) :
  draws (compute_score rain vib blast slope det)
        (scorer_answer rain vib blast slope det).
Proof.
  intros w. destruct (compute_score_total rain vib blast slope det w) as (rs & g & E).
  exists rs, g. split; [exact E |]. now exists w, (set_rng g w).
Qed.

(** The benches a lookup can return are those of the catalog. *)
Lemma find_bench_catalog (bench_id : string) (bench : BenchRec num) :
  find_bench bench_id = Some bench -> In bench benches /\ b_id bench = bench_id.
Proof.
  unfold find_bench. intros E. apply find_some in E. destruct E as [Hin Heq].
  split; [exact Hin | now apply String.eqb_eq].
Qed.

Lemma catalog_centroid (bench : BenchRec num) :
  In bench benches -> exists center : num * num, centroid (b_coords bench) = Some center.
Proof.
  intros Hin. unfold benches in Hin. cbn [In] in Hin.
  destruct Hin as [<- | [<- | [<- | [<- | []]]]]; eexists; reflexivity.
Qed.

Lemma draws_score_bench (det : bool) (gr gv gb : num) (bench_id : string)
  (bench : BenchRec num) :
  find_bench bench_id = Some bench ->
  draws (score_bench det gr gv gb bench_id) (result_for det (gr, gv, gb) bench_id).
Proof.
  intros Hf. unfold score_bench.
  eapply draws_bind; [apply (draws_lift_option _ bench (fun b => b = bench) Hf eq_refl) |].
  intros b ->. eapply draws_bind; [apply draws_compute_score |].
  intros rs Hrs. apply draws_ret. exists bench, rs. cbn [fst snd]. now repeat split.
Qed.

Lemma draws_layer_circle (det : bool) (r : RiskResult num) (bench : BenchRec num)
  (center : num * num) (layer : Z) :
  draws (layer_circle det r bench center layer) (layer_of det r bench center layer).
Proof.
  unfold layer_circle. eapply draws_bind; [apply draws_compute_score |].
  intros [risk score] Hrs. apply draws_ret. exists risk, score.
  replace (2 * layer)%Z with (layer * 2)%Z by apply Z.mul_comm.
  split; [exact Hrs | reflexivity].
Qed.

Lemma draws_bench_layers (det : bool) (r : RiskResult num) (bench : BenchRec num) :
  find_bench (Bench r) = Some bench ->
  draws (bench_layers det r) (layers_for det r).
Proof.
  intros Hf. unfold bench_layers.
  eapply draws_bind; [apply (draws_lift_option _ bench (fun b => b = bench) Hf eq_refl) |].
  intros b ->.
  destruct (find_bench_catalog _ _ Hf) as [Hin _].
  destruct (catalog_centroid _ Hin) as [center Hcenter].
  eapply draws_bind; [apply (draws_lift_option _ _ (eq center) Hcenter eq_refl) |].
  intros c <-.
  eapply draws_bind; [apply draws_mapM; intros layer _; apply draws_layer_circle |].
  intros circles Hc. apply draws_ret. exists bench, center, circles. now repeat split.
Qed.

Lemma draws_randint (a b : Z) :
  (a <= b)%Z -> draws (num := num) (randint a b) (fun z => (a <= z <= b)%Z).
Proof.
  intros Hab w. eexists. exists (advance (rng w)). split; [reflexivity |].
  assert (0 <= next_word (rng w) mod (b - a + 1) < b - a + 1)%Z
    by (apply Z.mod_pos_bound; lia).
  lia.
Qed.

Lemma draws_uniform (a b : num) :
  draws (uniform a b) (fun x => exists g i, x = nadd a (nmul (nsub b a) (unit_at g i))).
Proof.
  intros w. eexists. exists (advance (rng w)). split; [reflexivity |].
  now exists (rng w), (drawn (rng w)).
Qed.

Lemma draws_auto_reading : draws (num := num) auto_reading drawn_reading.
Proof.
  unfold auto_reading.
  eapply draws_bind; [apply draws_randint; lia |]. intros r Hr.
  eapply draws_bind; [apply draws_uniform |]. intros v (g & i & ->).
  eapply draws_bind; [apply draws_randint; lia |]. intros b Hb.
  apply draws_ret. now exists r, b, g, i.
Qed.

Lemma draws_tick_readings (rain1 vib1 blast1 rain2 vib2 blast2 : num) (mode : string) :
  draws (tick_readings rain1 vib1 blast1 rain2 vib2 blast2 mode)
        (fun rd => readings_for mode (rain1, vib1, blast1) (rain2, vib2, blast2)
                                (fst rd) (snd rd)).
Proof.
  unfold tick_readings, readings_for. destruct (String.eqb mode "Auto").
  - eapply draws_bind; [apply draws_auto_reading |]. intros a Ha.
    eapply draws_bind; [apply draws_auto_reading |]. intros b Hb.
    apply draws_ret. now split.
  - apply draws_ret. now split.
Qed.

Lemma draws_score_all (det : bool) (rd1 rd2 : num * num * num) :
  draws (score_all det [({| g_benches := ["Bench 1"; "Bench 2"] |}, rd1);
                        ({| g_benches := ["Bench 3"; "Bench 4"] |}, rd2)])
        (results_for det rd1 rd2).
Proof.
  unfold score_all.
  eapply draws_bind with
    (P := Forall2 (fun gi rs => Forall2 (result_for det (snd gi)) (g_benches (fst gi)) rs)
                  [({| g_benches := ["Bench 1"; "Bench 2"] |}, rd1);
                   ({| g_benches := ["Bench 3"; "Bench 4"] |}, rd2)]).
  - apply draws_mapM. intros [g [[gr gv] gb]] Hin. unfold score_group.
    apply draws_mapM. intros bench_id Hid. cbn [fst snd In] in *.
    destruct Hin as [E | [E | []]]; inversion E; subst; cbn [g_benches In] in Hid;
      destruct Hid as [<- | [<- | []]];
      eapply draws_score_bench; reflexivity.
  - intros rss HR. apply draws_ret.
    inversion HR as [| gi1 rs1 l1 l1' Ha HR1]; subst; clear HR.
    inversion HR1 as [| gi2 rs2 l2 l2' Hb HR2]; subst; clear HR1.
    inversion HR2; subst; clear HR2.
    cbn [fst snd g_benches] in Ha, Hb.
    inversion Ha as [| ? x1 ? ? Hx1 Ha1]; subst; clear Ha.
    inversion Ha1 as [| ? x2 ? ? Hx2 Ha2]; subst; clear Ha1.
    inversion Ha2; subst; clear Ha2.
    inversion Hb as [| ? x3 ? ? Hx3 Hb1]; subst; clear Hb.
    inversion Hb1 as [| ? x4 ? ? Hx4 Hb2]; subst; clear Hb1.
    inversion Hb2; subst; clear Hb2.
    exists x1, x2, x3, x4. cbn [concat app]. now repeat split.
Qed.

(** A tick never raises.  It works with the readings of its mode, scores
    the four benches, pushes one record on the history, and draws the
    layers of each result; only the history and the random source
    change. *)
Lemma update_dashboard_spec (rain1 vib1 blast1 rain2 vib2 blast2 : num)
  (n_intervals : Z) (show_dem : bool) (mode : string) (w : World num) :
  exists (rd1 rd2 : num * num * num) (results : list (RiskResult num))
         (layers : list (list (MapItem num))) (g : Rng),
    let det := String.eqb mode "Manual" in
    let h := push (history_record (fst (fst rd1)) (snd (fst rd1)) (snd rd1)
                                  (fst (fst rd2)) (snd (fst rd2)) (snd rd2) results)
                  (history w) in
    update_dashboard rain1 vib1 blast1 rain2 vib2 blast2 n_intervals show_dem mode w
    = Some (outputs_of h results layers show_dem (dem_overlay w),
            set_rng g (set_history h w))
    /\ readings_for mode (rain1, vib1, blast1) (rain2, vib2, blast2) rd1 rd2
    /\ results_for det rd1 rd2 results
    /\ Forall2 (layers_for det) results layers.
Proof.
  unfold update_dashboard.
  destruct (draws_tick_readings rain1 vib1 blast1 rain2 vib2 blast2 mode w)
    as ([rd1 rd2] & g1 & E1 & P1).
  rewrite (bind_some _ _ _ _ _ E1).
  destruct (draws_score_all (String.eqb mode "Manual") rd1 rd2 (set_rng g1 w))
    as (results & g2 & E2 & P2).
  destruct rd1 as [[r1 v1] b1], rd2 as [[r2 v2] b2].
  cbn [groups nth_error lift_option].
  unfold bind at 1. unfold ret at 1. unfold bind at 1. unfold ret at 1.
  rewrite (bind_some _ _ _ _ _ E2).
  unfold bind at 1. unfold append_history at 1.
  unfold bind at 1. unfold get_history at 1.
  destruct P2 as (x1 & x2 & x3 & x4 & -> & R1 & R2 & R3 & R4).
  unfold bind at 1. unfold ret at 1.
  cbn [fst snd] in *.
  set (h := push _ _).
  assert (HL : draws (mapM (bench_layers (String.eqb mode "Manual")) [x1; x2; x3; x4])
                     (Forall2 (layers_for (String.eqb mode "Manual")) [x1; x2; x3; x4])).
  { apply draws_mapM. intros r Hr. cbn [In] in Hr.
    destruct R1 as (c1 & s1 & F1 & _ & Q1), R2 as (c2 & s2 & F2 & _ & Q2),
             R3 as (c3 & s3 & F3 & _ & Q3), R4 as (c4 & s4 & F4 & _ & Q4).
    destruct Hr as [<- | [<- | [<- | [<- | []]]]];
      eapply draws_bench_layers; subst; cbn [Bench]; eassumption. }
  destruct (HL (set_history h (set_rng g2 (set_rng g1 w)))) as (layers & g3 & E3 & P3).
  rewrite (bind_some _ _ _ _ _ E3).
  exists (r1, v1, b1), (r2, v2, b2), [x1; x2; x3; x4], layers, g3.
  cbn [fst snd]. split; [reflexivity |]. split; [exact P1 |].
  split; [| exact P3].
  now exists x1, x2, x3, x4.
Qed.

End TickFacts.

(* ================================================================== *)
(** ** The history buffer *)
(* ================================================================== *)

Section HistoryFacts.

Context {num : Type} `{PyNum num}.

Lemma push_spec (rec : PyDict num) (h : list (PyDict num)) :
  push rec h = (if (length h <? 200)%nat then h else tl h) ++ [rec].
Proof.
  unfold push. rewrite length_app. cbn [length].
  destruct (length h <? 200)%nat eqn:E.
  - apply Nat.ltb_lt in E.
    destruct (200 <? length h + 1)%nat eqn:E'; [apply Nat.ltb_lt in E'; lia | reflexivity].
  - apply Nat.ltb_ge in E.
    destruct (200 <? length h + 1)%nat eqn:E'; [| apply Nat.ltb_ge in E'; lia].
    destruct h; [cbn in E; lia | reflexivity].
Qed.

Lemma push_length (rec : PyDict num) (h : list (PyDict num)) :
  (length h <= 200)%nat -> (length (push rec h) <= 200)%nat.
Proof.
  intros Hh. rewrite push_spec, length_app. cbn [length].
  destruct (length h <? 200)%nat eqn:E.
  - apply Nat.ltb_lt in E. lia.
  - destruct h; cbn [tl length] in *; lia.
Qed.

Lemma tl_skipn {A} (k : nat) (l : list A) : tl (skipn k l) = skipn (S k) l.
Proof.
  revert l. induction k as [| k IH]; intros l.
  - destruct l; reflexivity.
  - destruct l as [| a l]; [reflexivity |]. cbn [skipn]. apply IH.
Qed.

(** The buffer after appending [recs] to the empty history, oldest
    first, is the last 200 of them, in their order. *)
Lemma history_window (recs : list (PyDict num)) :
  fold_left (fun h r => push r h) recs [] = skipn (length recs - 200) recs.
Proof.
  induction recs as [| r recs IH] using rev_ind; [reflexivity |].
  rewrite fold_left_app. cbn [fold_left]. rewrite IH, push_spec.
  rewrite length_skipn, length_app. cbn [length].
  destruct (length recs - (length recs - 200) <? 200)%nat eqn:E.
  - apply Nat.ltb_lt in E.
    replace (length recs - 200)%nat with 0%nat by lia.
    replace (length recs + 1 - 200)%nat with 0%nat by lia. reflexivity.
  - apply Nat.ltb_ge in E. rewrite tl_skipn.
    replace (length recs + 1 - 200)%nat with (S (length recs - 200)) by lia.
    rewrite skipn_app.
    replace (S (length recs - 200) - length recs)%nat with 0%nat by lia.
    reflexivity.
Qed.

(** What a tick that returned did to the history. *)
Lemma tick_history (rain1 vib1 blast1 rain2 vib2 blast2 : num) (n_intervals : Z)
  (show_dem : bool) (mode : string) (w w' : World num) (out : Outputs num) :
  update_dashboard rain1 vib1 blast1 rain2 vib2 blast2 n_intervals show_dem mode w
  = Some (out, w') ->
  exists rec : PyDict num, history w' = push rec (history w).
Proof.
  intros E.
  destruct (update_dashboard_spec rain1 vib1 blast1 rain2 vib2 blast2 n_intervals
              show_dem mode w) as (rd1 & rd2 & results & layers & g & E' & _).
  rewrite E' in E. inversion E; subst. eexists. reflexivity.
Qed.

Lemma last_push (rec : PyDict num) (h : list (PyDict num)) :
  last (push rec h) [] = rec.
Proof. rewrite push_spec. apply last_last. Qed.

(** The history after ticks that appended [recs] is what the pushes of
    these records leave. *)
Lemma reached_history (recs : list (PyDict num)) (w : World num) :
  reached recs w ->
  history w = fold_left (fun h r => push r h) recs [].
Proof.
  induction 1 as [g dem | recs w r1 v1 b1 r2 v2 b2 n sd mode out w' Hw IH Ht].
  - reflexivity.
  - destruct (tick_history _ _ _ _ _ _ _ _ _ _ _ _ Ht) as [rec Hrec].
    rewrite fold_left_app. cbn [fold_left].
    now rewrite <- IH, Hrec, last_push.
Qed.

End HistoryFacts.

(** C4. After ticks that appended the records [recs], oldest first, the
    history is the last 200 of them in their order, so it holds at most
    200 records, and with 201 records appended it is records 2..201.  The
    next tick appends one record and, when the buffer already holds 200,
    evicts exactly the oldest. *)
Theorem C4_history_bounded :
  forall (num : Type) (P : PyNum num) (recs : list (PyDict num)) (w : World num),
    reached recs w ->
    history w = skipn (length recs - 200) recs
    /\ (length (history w) <= 200)%nat
    /\ (length recs = 201%nat -> history w = tl recs)
    /\ forall (rain1 vib1 blast1 rain2 vib2 blast2 : num) (n_intervals : Z)
              (show_dem : bool) (mode : string),
       exists (out : Outputs num) (rec : PyDict num) (w' : World num),
         update_dashboard rain1 vib1 blast1 rain2 vib2 blast2 n_intervals show_dem
                          mode w = Some (out, w')
         /\ reached (recs ++ [rec]) w'
         /\ history w' = skipn (length (recs ++ [rec]) - 200) (recs ++ [rec])
         /\ (length (history w') <= 200)%nat
         /\ ((length (history w) < 200)%nat -> history w' = history w ++ [rec])
         /\ (length (history w) = 200%nat -> history w' = tl (history w) ++ [rec]).
Proof.
  intros num P recs w Hw.
  pose proof (reached_history recs w Hw) as Hrecs.
  assert (Hlen : (length (history w) <= 200)%nat).
  { rewrite Hrecs, history_window, length_skipn. lia. }
  split; [now rewrite Hrecs, history_window |].
  split; [exact Hlen |]. split.
  - intros H201. rewrite Hrecs, history_window, H201. reflexivity.
  - intros r1 v1 b1 r2 v2 b2 n sd mode.
    destruct (update_dashboard_spec r1 v1 b1 r2 v2 b2 n sd mode w)
      as (rd1 & rd2 & results & layers & g & E & _).
    cbv zeta in E. eexists. eexists. eexists. split; [exact E |].
    split.
    { pose proof (reached_tick _ _ _ _ _ _ _ _ _ _ _ _ _ Hw E) as Hr.
      cbn [history set_rng set_history] in Hr. rewrite last_push in Hr. exact Hr. }
    cbn [history set_rng set_history].
    split; [| split; [now apply push_length | split]].
    + rewrite <- history_window, fold_left_app. cbn [fold_left].
      now rewrite <- Hrecs.
    + intros Hlt. rewrite push_spec.
      apply Nat.ltb_lt in Hlt. now rewrite Hlt.
    + intros Heq. rewrite push_spec, Heq. reflexivity.
Qed.

(* ================================================================== *)
(** ** The results and the map of a tick *)
(* ================================================================== *)

Section OutputFacts.

Context {num : Type} `{PyNum num}.

Lemma data_results (h : list (PyDict num)) (results : list (RiskResult num))
  (layers : list (list (MapItem num))) (show_dem : bool)
  (dem : option (string * ((num * num) * (num * num)))) :
  map row_result (data (outputs_of h results layers show_dem dem)) = results.
Proof.
  unfold outputs_of; cbn [data]. rewrite map_map. cbn [row_result]. apply map_id.
Qed.

Lemma results_for_benches (det : bool) (rd1 rd2 : num * num * num)
  (results : list (RiskResult num)) :
  results_for det rd1 rd2 results ->
  map (@Bench num) results = map (@b_id num) benches
  /\ map (@Bench num) results = concat (map g_benches groups).
Proof.
  intros (r1 & r2 & r3 & r4 & -> & R1 & R2 & R3 & R4).
  destruct R1 as (? & ? & _ & _ & ->), R2 as (? & ? & _ & _ & ->),
           R3 as (? & ? & _ & _ & ->), R4 as (? & ? & _ & _ & ->).
  split; reflexivity.
Qed.

(** The record of a tick holds, under each bench id, the score of the
    result of that bench. *)
Lemma history_record_scores (det : bool) (rd1 rd2 : num * num * num)
  (results : list (RiskResult num)) (a b c d e f : num) :
  results_for det rd1 rd2 results ->
  Forall (fun r => dict_get (Bench r) (history_record a b c d e f results)
                   = Some (Score r)) results.
Proof.
  intros (r1 & r2 & r3 & r4 & -> & R1 & R2 & R3 & R4).
  destruct R1 as (? & ? & _ & _ & ->), R2 as (? & ? & _ & _ & ->),
           R3 as (? & ? & _ & _ & ->), R4 as (? & ? & _ & _ & ->).
  repeat constructor.
Qed.

Lemma history_record_keys (det : bool) (rd1 rd2 : num * num * num)
  (results : list (RiskResult num)) (a b c d e f : num) :
  results_for det rd1 rd2 results ->
  history_record a b c d e f results
  = [("rain1", a); ("vib1", b); ("blast1", c); ("rain2", d); ("vib2", e); ("blast2", f)]
    ++ map (fun r => (Bench r, Score r)) results.
Proof.
  intros (r1 & r2 & r3 & r4 & -> & R1 & R2 & R3 & R4).
  destruct R1 as (? & ? & _ & _ & ->), R2 as (? & ? & _ & _ & ->),
           R3 as (? & ? & _ & _ & ->), R4 as (? & ? & _ & _ & ->).
  reflexivity.
Qed.

End OutputFacts.

(** C7. Every tick returns one result per bench of the catalog, in the
    order of the groups and of the benches within them (Bench 1, Bench 2,
    Bench 3, Bench 4), each a scorer answer on the reading of its group
    and the slope of its bench, and appends exactly one record, built from
    the readings and these results, to the history. *)
Theorem C7_one_result_per_bench :
  forall (num : Type) (P : PyNum num) (rain1 vib1 blast1 rain2 vib2 blast2 : num)
         (n_intervals : Z) (show_dem : bool) (mode : string) (w : World num),
  exists (out : Outputs num) (w' : World num) (rd1 rd2 : num * num * num)
         (r1 r2 r3 r4 : RiskResult num),
    update_dashboard rain1 vib1 blast1 rain2 vib2 blast2 n_intervals show_dem mode w
    = Some (out, w')
    /\ readings_for mode (rain1, vib1, blast1) (rain2, vib2, blast2) rd1 rd2
    /\ map row_result (data out) = [r1; r2; r3; r4]
    /\ map (@Bench num) [r1; r2; r3; r4] = map (@b_id num) benches
    /\ map (@Bench num) [r1; r2; r3; r4] = concat (map g_benches groups)
    /\ result_for (String.eqb mode "Manual") rd1 "Bench 1" r1
    /\ result_for (String.eqb mode "Manual") rd1 "Bench 2" r2
    /\ result_for (String.eqb mode "Manual") rd2 "Bench 3" r3
    /\ result_for (String.eqb mode "Manual") rd2 "Bench 4" r4
    /\ history w'
       = (if (length (history w) <? 200)%nat then history w else tl (history w))
         ++ [history_record (fst (fst rd1)) (snd (fst rd1)) (snd rd1)
                            (fst (fst rd2)) (snd (fst rd2)) (snd rd2) [r1; r2; r3; r4]].
Proof.
  intros num P a1 v1 b1 a2 v2 b2 n sd mode w.
  destruct (update_dashboard_spec a1 v1 b1 a2 v2 b2 n sd mode w)
    as (rd1 & rd2 & results & layers & g & E & HI & HR & HL).
  cbv zeta in E, HR, HL.
  destruct (results_for_benches _ _ _ _ HR) as [Hb Hg].
  destruct HR as (r1 & r2 & r3 & r4 & -> & R1 & R2 & R3 & R4).
  eexists. eexists. exists rd1, rd2, r1, r2, r3, r4.
  split; [exact E |]. rewrite data_results.
  cbn [history set_rng set_history]. rewrite push_spec.
  repeat split; assumption.
Qed.

(* ================================================================== *)
(** ** Worked examples *)
(* ================================================================== *)

(** C5. In Manual mode, with the reading (10, 1, 0) for group 1, Bench 1
    (slope 35) gets score 26.5 and classification Low; with the reading
    (200, 10, 5) for group 2, Bench 4 (slope 60) gets score 225 and
    classification High.  Both hold in exact arithmetic and in binary64,
    for the scorer alone and for the table of the tick. *)
Theorem C5_end_to_end_examples :
  (forall w : World Q, exists s : Q,
      compute_score 10%Q 1%Q 0%Q 35 true w = Some ((Low, s), w) /\ (s == 26.5)%Q)
  /\ (forall w : World Q, exists s : Q,
         compute_score 200%Q 10%Q 5%Q 60 true w = Some ((High, s), w) /\ (s == 225)%Q)
  /\ (forall w : World float,
         compute_score 10%float 1%float 0%float 35 true w = Some ((Low, 26.5%float), w)
         /\ compute_score 200%float 10%float 5%float 60 true w
            = Some ((High, 225%float), w))
  /\ (forall (rain2 vib2 blast2 : Q) (n_intervals : Z) (show_dem : bool) (w : World Q),
         exists (out : Outputs Q) (w' : World Q) (row : TableRow Q),
           update_dashboard 10%Q 1%Q 0%Q rain2 vib2 blast2 n_intervals show_dem
                            "Manual" w = Some (out, w')
           /\ nth_error (data out) 0 = Some row
           /\ Bench (row_result row) = "Bench 1"
           /\ Slope (row_result row) = 35%Z
           /\ (Score (row_result row) == 26.5)%Q
           /\ Risk (row_result row) = Low)
  /\ (forall (rain1 vib1 blast1 : Q) (n_intervals : Z) (show_dem : bool) (w : World Q),
         exists (out : Outputs Q) (w' : World Q) (row : TableRow Q),
           update_dashboard rain1 vib1 blast1 200%Q 10%Q 5%Q n_intervals show_dem
                            "Manual" w = Some (out, w')
           /\ nth_error (data out) 3 = Some row
           /\ Bench (row_result row) = "Bench 4"
           /\ Slope (row_result row) = 60%Z
           /\ (Score (row_result row) == 225)%Q
           /\ Risk (row_result row) = High)
  /\ (forall (n_intervals : Z) (show_dem : bool) (w : World float),
         exists (out : Outputs float) (w' : World float) (row1 row4 : TableRow float),
           update_dashboard 10%float 1%float 0%float 200%float 10%float 5%float
                            n_intervals show_dem "Manual" w = Some (out, w')
           /\ nth_error (data out) 0 = Some row1
           /\ nth_error (data out) 3 = Some row4
           /\ row_result row1
              = {| Bench := "Bench 1"; Slope := 35; Rainfall := 10%float;
                   Vibration := 1%float; Blast := 0%float; Score := 26.5%float;
                   Risk := Low |}
           /\ row_result row4
              = {| Bench := "Bench 4"; Slope := 60; Rainfall := 200%float;
                   Vibration := 10%float; Blast := 5%float; Score := 225%float;
                   Risk := High |}).
Proof.
  split; [| split; [| split; [| split; [| split]]]].
  - intros w. exists (score_of 10%Q 1%Q 0%Q 35 (literal 2 1) (of_int 0)).
    split; [reflexivity | now vm_compute].
  - intros w. exists (score_of 200%Q 10%Q 5%Q 60 (literal 2 1) (of_int 0)).
    split; [reflexivity | now vm_compute].
  - intros w. split; rewrite compute_score_deterministic; vm_compute; reflexivity.
  - intros rain2 vib2 blast2 n sd w. do 3 eexists.
    split; [reflexivity |]. split; [reflexivity |].
    cbn [row_result Bench Slope Score Risk].
    repeat split; now vm_compute.
  - intros rain1 vib1 blast1 n sd w. do 3 eexists.
    split; [reflexivity |]. split; [reflexivity |].
    cbn [row_result Bench Slope Score Risk].
    repeat split; now vm_compute.
  - intros n sd w. do 4 eexists.
    split; [reflexivity |]. split; [reflexivity |]. split; [reflexivity |].
    split; vm_compute; reflexivity.
Qed.

(* ================================================================== *)
(** ** Layers in Manual mode *)
(* ================================================================== *)


Lemma classify_monotone (s t : Q) :
  (s <= t)%Q -> (severity (classify s) <= severity (classify t))%nat.
Proof.
  intros Hst.
  destruct (classify_spec s) as (Ls & Ms & Hs), (classify_spec t) as (Lt & Mt & Ht).
  destruct (classify s), (classify t); cbn [severity]; try lia; exfalso.
  - assert (t < 40)%Q by now apply Lt. assert (40 <= s /\ s < 70)%Q by now apply Ms. lra.
  - assert (t < 40)%Q by now apply Lt. assert (70 <= s)%Q by now apply Hs. lra.
  - assert (40 <= t /\ t < 70)%Q by now apply Mt. assert (70 <= s)%Q by now apply Hs. lra.
Qed.

(** In deterministic mode the scorer has one answer. *)
Lemma scorer_answer_deterministic {num : Type} `{PyNum num}
  (rain vib blast : num) (slope : Z) (rs : RiskLevel * num) :
  scorer_answer rain vib blast slope true rs <->
  rs = (classify (score_of rain vib blast slope (literal 2 1) (of_int 0)),
        score_of rain vib blast slope (literal 2 1) (of_int 0)).
Proof.
  split.
  - intros (w & w' & E). rewrite compute_score_deterministic in E. now inversion E.
  - intros ->. exists (initial_world sample_rng None), (initial_world sample_rng None).
    apply compute_score_deterministic.
Qed.


(* ================================================================== *)
(** ** The fields of a record *)
(* ================================================================== *)

Section ExportFacts.

Context {num : Type} `{PyNum num}.

Lemma tick_history_fields (rain1 vib1 blast1 rain2 vib2 blast2 : num) (n_intervals : Z)
  (show_dem : bool) (mode : string) (w w' : World num) (out : Outputs num) :
  update_dashboard rain1 vib1 blast1 rain2 vib2 blast2 n_intervals show_dem mode w
  = Some (out, w') ->
  exists rec : PyDict num,
    history w' = push rec (history w) /\ map fst rec = record_fields.
Proof.
  intros E.
  destruct (update_dashboard_spec rain1 vib1 blast1 rain2 vib2 blast2 n_intervals
              show_dem mode w) as (rd1 & rd2 & results & layers & g & E' & _ & HR & _).
  cbv zeta in E', HR. rewrite E' in E. inversion E; subst.
  eexists. split; [reflexivity |].
  rewrite (history_record_keys _ _ _ _ _ _ _ _ _ _ HR).
  destruct HR as (r1 & r2 & r3 & r4 & -> & R1 & R2 & R3 & R4).
  destruct R1 as (? & ? & _ & _ & ->), R2 as (? & ? & _ & _ & ->),
           R3 as (? & ? & _ & _ & ->), R4 as (? & ? & _ & _ & ->).
  reflexivity.
Qed.

(** Every record of a history the process reaches has the ten fields, in
    order. *)
Lemma reached_fields (recs : list (PyDict num)) (w : World num) :
  reached recs w -> Forall (fun rec => map fst rec = record_fields) (history w).
Proof.
  induction 1 as [g dem | recs w r1 v1 b1 r2 v2 b2 n sd mode out w' Hw IH Ht].
  - constructor.
  - destruct (tick_history_fields _ _ _ _ _ _ _ _ _ _ _ _ Ht) as (rec & -> & Hk).
    rewrite push_spec. apply Forall_app. split.
    + destruct (length (history w) <? 200)%nat; [exact IH |].
      destruct (history w); [constructor | now inversion IH].
    + now repeat constructor.
Qed.

End ExportFacts.

(* ================================================================== *)
(** ** A run *)
(* ================================================================== *)

Lemma world_after_reached {num : Type} `{PyNum num}
  (rain1 vib1 blast1 rain2 vib2 blast2 : num) (n_intervals : Z) (show_dem : bool)
  (mode : string) (recs : list (PyDict num)) (w : World num) :
  let w' := world_after (update_dashboard rain1 vib1 blast1 rain2 vib2 blast2
                                          n_intervals show_dem mode) w in
  reached recs w -> reached (recs ++ [last (history w') []]) w'.
Proof.
  intros w' Hw. subst w'. unfold world_after.
  destruct (update_dashboard_spec rain1 vib1 blast1 rain2 vib2 blast2 n_intervals
              show_dem mode w) as (rd1 & rd2 & results & layers & g & E & _).
  cbv zeta in E. rewrite E. eapply reached_tick; eassumption.
Qed.

(** The records the two ticks of the sample run appended. *)
Lemma sample_world_reached : reached (history sample_world) sample_world.
Proof.
  assert (Hr : exists recs, reached recs sample_world /\ recs = history sample_world).
  { eexists. split.
    - unfold sample_world. do 2 apply world_after_reached. apply reached_init.
    - vm_compute. reflexivity. }
  destruct Hr as (recs & Hr & ->). exact Hr.
Qed.

Lemma C4_history_bounded_witness :
  reached (history sample_world) sample_world
  /\ length (history sample_world) = 2%nat
  /\ (length (history sample_world) <= 200)%nat.
Proof.
  split; [exact sample_world_reached |].
  split; [vm_compute; reflexivity |].
  exact (proj1 (proj2 (C4_history_bounded Q PyNum_Q (history sample_world) sample_world
                         sample_world_reached))).
Defined.

(* ================================================================== *)
(** ** The catalog *)
(* ================================================================== *)

(** Each polygon of the catalog lists six points, the last repeating the
    first; the mean of [centroid] runs over all six. *)
Lemma catalog_polygons_closed {num : Type} `{PyNum num} (bench : BenchRec num) :
  In bench benches ->
  length (b_coords bench) = 6%nat
  /\ nth_error (b_coords bench) 5 = nth_error (b_coords bench) 0.
Proof.
  intros Hin. unfold benches in Hin. cbn [In] in Hin.
  destruct Hin as [<- | [<- | [<- | [<- | []]]]]; split; reflexivity.
Qed.

(* ================================================================== *)
(** ** binary64 on the slider grid *)
(* ================================================================== *)

Lemma score_of_binary64 (rain vib blast : float) (slope : Z) :
  score_of rain vib blast slope (literal 2 1) (of_int 0)
  = fast_score rain vib blast (f_of_int slope / 2)%float.
Proof. reflexivity. Qed.

Lemma classify_binary64 (score : float) : classify score = fast_classify score.
Proof. reflexivity. Qed.




(* ================================================================== *)
(** ** Rounding to one decimal *)
(* ================================================================== *)

(** The nearest integer is within a half of the number. *)
Lemma round_half_even_near (q : Q) :
  (inject_Z (round_half_even q) - (1 # 2) <= q
   /\ q <= inject_Z (round_half_even q) + (1 # 2))%Q.
Proof.
  unfold round_half_even.
  pose proof (Qfloor_le q) as Hlo. pose proof (Qlt_floor q) as Hhi.
  rewrite inject_Z_plus in Hhi. change (inject_Z 1) with 1%Q in Hhi.
  destruct (q - inject_Z (Qfloor q) ?= 1 # 2)%Q eqn:E.
  - apply Qeq_alt in E.
    destruct (Z.even (Qfloor q));
      [| rewrite inject_Z_plus; change (inject_Z 1) with 1%Q]; split; lra.
  - apply Qlt_alt in E. split; lra.
  - apply Qgt_alt in E. rewrite inject_Z_plus. change (inject_Z 1) with 1%Q.
    split; lra.
Qed.

(** A number that is an integer is its own nearest integer. *)
Lemma round_half_even_integer (q : Q) (z : Z) :
  (q == inject_Z z)%Q -> round_half_even q = z.
Proof.
  intros Hq. unfold round_half_even.
  assert (Hf : Qfloor q = z) by (rewrite Hq; apply Qfloor_Z).
  rewrite Hf.
  assert (E : (q - inject_Z z ?= 1 # 2)%Q = Lt) by (apply (proj1 (Qlt_alt _ _)); lra).
  now rewrite E.
Qed.

Lemma Q_round1_value (q : Q) : (Q_round1 q == inject_Z (tenths q) / 10)%Q.
Proof.
  unfold Q_round1. rewrite (Qmake_Qdiv (tenths q) 10). reflexivity.
Qed.

(** [round(q, 1)] is within 0.05 of [q]. *)
Lemma Q_round1_near (q : Q) :
  (Q_round1 q - (1 # 20) <= q /\ q <= Q_round1 q + (1 # 20))%Q.
Proof.
  rewrite Q_round1_value. unfold tenths.
  destruct (round_half_even_near (q * 10)) as [Hlo Hhi].
  set (m := inject_Z (round_half_even (q * 10))) in *.
  setoid_replace (m / 10)%Q with (m * (1 # 10))%Q by field.
  split; lra.
Qed.

(** [round(q, 1)] keeps a number of tenths as it is. *)
Lemma Q_round1_tenths (q : Q) (z : Z) :
  (q * 10 == inject_Z z)%Q -> (Q_round1 q == q)%Q.
Proof.
  intros Hq. rewrite Q_round1_value. unfold tenths.
  rewrite (round_half_even_integer _ _ Hq), <- Hq. field.
Qed.

Lemma Q_round1_below (raw : Q) (t : Z) :
  (Q_round1 raw < inject_Z t)%Q -> (raw < inject_Z t)%Q.
Proof.
  intros Hlt. destruct (round_half_even_near (raw * 10)) as [_ Hhi].
  rewrite Q_round1_value in Hlt. fold (tenths raw) in Hhi.
  assert (Hm : (tenths raw < 10 * t)%Z).
  { rewrite Zlt_Qlt, inject_Z_mult. change (inject_Z 10) with 10%Q.
    setoid_replace (inject_Z (tenths raw))
      with (inject_Z (tenths raw) / 10 * 10)%Q by field.
    lra. }
  assert (Hm' : (inject_Z (tenths raw + 1) <= inject_Z (10 * t))%Q)
    by (rewrite <- Zle_Qle; lia).
  rewrite inject_Z_plus, inject_Z_mult in Hm'.
  change (inject_Z 10) with 10%Q in Hm'. change (inject_Z 1) with 1%Q in Hm'.
  clear Hlt. lra.
Qed.

Lemma Q_round1_above (raw : Q) (t : Z) :
  (inject_Z t < Q_round1 raw)%Q -> (inject_Z t < raw)%Q.
Proof.
  intros Hlt. destruct (round_half_even_near (raw * 10)) as [Hlo _].
  rewrite Q_round1_value in Hlt. fold (tenths raw) in Hlo.
  assert (Hm : (10 * t < tenths raw)%Z).
  { rewrite Zlt_Qlt, inject_Z_mult. change (inject_Z 10) with 10%Q.
    setoid_replace (inject_Z (tenths raw))
      with (inject_Z (tenths raw) / 10 * 10)%Q by field.
    lra. }
  assert (Hm' : (inject_Z (10 * t + 1) <= inject_Z (tenths raw))%Q)
    by (rewrite <- Zle_Qle; lia).
  rewrite inject_Z_plus, inject_Z_mult in Hm'.
  change (inject_Z 10) with 10%Q in Hm'. change (inject_Z 1) with 1%Q in Hm'.
  clear Hlt. lra.
Qed.

Lemma classify_Qeq (s t : Q) : (s == t)%Q -> classify s = classify t.
Proof.
  intros Hst.
  destruct (classify_spec s) as (Ls & Ms & Hs), (classify_spec t) as (Lt & Mt & Ht).
  destruct (classify s) eqn:Es.
  - symmetry. apply Lt. rewrite <- Hst. now apply Ls.
  - symmetry. apply Mt. rewrite <- Hst. now apply Ms.
  - symmetry. apply Ht. rewrite <- Hst. now apply Hs.
Qed.

(* ================================================================== *)
(** ** More on the scorer *)
(* ================================================================== *)

(** Whatever the mode, the level returned is the level of the score
    returned. *)
Lemma scorer_answer_classify {num : Type} `{PyNum num}
  (rain vib blast : num) (slope : Z) (det : bool) (rs : RiskLevel * num) :
  scorer_answer rain vib blast slope det rs -> fst rs = classify (snd rs).
Proof.
  intros (w & w' & E). destruct det.
  - rewrite compute_score_deterministic in E. now inversion E.
  - rewrite compute_score_stochastic in E. now inversion E.
Qed.

(** Every result of a tick carries the reading and slope it was scored
    on, the level the scorer answered and its score to one decimal. *)
Lemma results_for_rows {num : Type} `{PyNum num} (det : bool)
  (rd1 rd2 : num * num * num) (results : list (RiskResult num)) :
  results_for det rd1 rd2 results ->
  Forall (fun r => exists raw : num,
              scorer_answer (Rainfall r) (Vibration r) (Blast r) (Slope r) det
                            (Risk r, raw)
              /\ Score r = round1 raw) results.
Proof.
  intros (r1 & r2 & r3 & r4 & -> & R1 & R2 & R3 & R4).
  repeat constructor;
    match goal with
    | R : result_for _ _ _ ?r |- exists _, scorer_answer (Rainfall ?r) _ _ _ _ _ /\ _ =>
        destruct R as (bench & [risk raw] & _ & Hs & ->); exists raw;
        cbn [Rainfall Vibration Blast Slope Score Risk fst snd]; now split
    end.
Qed.

(** X1. In deterministic mode the score does not decrease when any of
    rainfall, vibration, blast count or slope increases, and neither does
    the severity of the classification. *)
Theorem X1_score_monotone :
  forall (rain vib blast rain' vib' blast' : Q) (slope slope' : Z) (w : World Q),
    (rain <= rain')%Q -> (vib <= vib')%Q -> (blast <= blast')%Q ->
    (slope <= slope')%Z ->
    exists (risk risk' : RiskLevel) (score score' : Q),
      compute_score rain vib blast slope true w = Some ((risk, score), w)
      /\ compute_score rain' vib' blast' slope' true w = Some ((risk', score'), w)
      /\ (score <= score')%Q
      /\ (severity risk <= severity risk')%nat.
Proof.
  intros rain vib blast rain' vib' blast' slope slope' w Hr Hv Hb Hs.
  do 4 eexists. split; [apply compute_score_deterministic |].
  split; [apply compute_score_deterministic |].
  assert (Hle : (score_of rain vib blast slope (literal 2 1) (of_int 0)
                 <= score_of rain' vib' blast' slope' (literal 2 1) (of_int 0))%Q).
  { unfold score_of; cbn [of_int literal nadd nsub nmul ndiv PyNum_Q].
    rewrite Zle_Qle in Hs.
    change (inject_Z 2) with 2%Q. change (inject_Z 5) with 5%Q.
    change (inject_Z 3) with 3%Q. change (inject_Z 0) with 0%Q.
    setoid_replace (inject_Z slope / 2)%Q with (inject_Z slope * (1 # 2))%Q by field.
    setoid_replace (inject_Z slope' / 2)%Q with (inject_Z slope' * (1 # 2))%Q by field.
    lra. }
  split; [exact Hle | now apply classify_monotone].
Qed.

Lemma X1_score_monotone_witness :
  exists (risk risk' : RiskLevel) (score score' : Q),
    compute_score 10%Q 1%Q 0%Q 35 true (initial_world sample_rng None)
    = Some ((risk, score), initial_world sample_rng None)
    /\ compute_score 200%Q 10%Q 5%Q 60 true (initial_world sample_rng None)
       = Some ((risk', score'), initial_world sample_rng None)
    /\ (score <= score')%Q
    /\ (severity risk <= severity risk')%nat.
Proof.
  apply (X1_score_monotone 10%Q 1%Q 0%Q 200%Q 10%Q 5%Q 35 60
           (initial_world sample_rng None)).
  - unfold Qle; simpl; lia.
  - unfold Qle; simpl; lia.
  - unfold Qle; simpl; lia.
  - lia.
Defined.

(* ================================================================== *)
(** ** The score shown and the score computed *)
(* ================================================================== *)

(** X4. In every tick, a row whose [Score] reads below 40 is Low, one
    that reads strictly between 40 and 70 is Medium, and one that reads
    above 70 is High: the level, taken from the unrounded score, can
    disagree with the thresholds applied to the [Score] shown only when
    that reads exactly 40.0 or 70.0.  It does then: a score between 39.95
    and 40 is Low and is shown as 40.0. *)
Theorem X4_shown_score_and_level :
  (forall (rain1 vib1 blast1 rain2 vib2 blast2 : Q) (n_intervals : Z)
          (show_dem : bool) (mode : string) (w : World Q),
      exists (out : Outputs Q) (w' : World Q),
        update_dashboard rain1 vib1 blast1 rain2 vib2 blast2 n_intervals show_dem mode w
        = Some (out, w')
        /\ Forall (fun r =>
                     ((Score r < 40)%Q -> Risk r = Low)
                     /\ ((40 < Score r)%Q /\ (Score r < 70)%Q -> Risk r = Medium)
                     /\ ((70 < Score r)%Q -> Risk r = High))
                  (map row_result (data out)))
  /\ (exists (raw : Q) (w' : World Q),
         compute_score 0%Q 0%Q 0%Q 80 false (initial_world edge_rng None)
         = Some ((Low, raw), w')
         /\ (39.95 <= raw)%Q /\ (raw < 40)%Q
         /\ (round1 raw == 40)%Q
         /\ classify (round1 raw) = Medium).
Proof.
  split.
  - intros a1 v1 b1 a2 v2 b2 n sd mode w.
    destruct (update_dashboard_spec a1 v1 b1 a2 v2 b2 n sd mode w)
      as (rd1 & rd2 & results & layers & g & E & _ & HR & _).
    cbv zeta in E, HR. eexists. eexists. split; [exact E |].
    rewrite data_results.
    eapply Forall_impl; [| exact (results_for_rows _ _ _ _ HR)].
    intros r (raw & Hs & Hscore).
    apply scorer_answer_classify in Hs. cbn [fst snd] in Hs.
    destruct (classify_spec raw) as (HL & HM & HH).
    rewrite Hs, Hscore. cbn [round1 PyNum_Q].
    change 40%Q with (inject_Z 40). change 70%Q with (inject_Z 70).
    split; [| split].
    + intros Hlt. apply HL. now apply Q_round1_below in Hlt.
    + intros [Hgt Hlt]. apply HM.
      apply Q_round1_above in Hgt. apply Q_round1_below in Hlt.
      change (inject_Z 40) with 40%Q in Hgt. change (inject_Z 70) with 70%Q in Hlt.
      split; lra.
    + intros Hgt. apply HH. apply Q_round1_above in Hgt.
      change (inject_Z 70) with 70%Q in Hgt. lra.
  - exists (score_of 0%Q 0%Q 0%Q 80
              (nadd (literal 15 10)
                    (nmul (nsub (literal 3 1) (literal 15 10)) (unit_at edge_rng 0)))
              (nadd (of_int (-5))
                    (nmul (nsub (of_int 5) (of_int (-5))) (unit_at edge_rng 1)))).
    eexists. split; [rewrite compute_score_stochastic; vm_compute; reflexivity |].
    split; [vm_compute; discriminate |]. split; [vm_compute; reflexivity |].
    split; now vm_compute.
Qed.

(** On an integer rainfall, a vibration in tenths and an integer blast
    count the deterministic score is a number of tenths. *)
Lemma slider_score_tenths (a c b slope : Z) :
  (score_of (inject_Z a) (c # 10) (inject_Z b) slope (literal 2 1) (of_int 0) * 10
   == inject_Z (5 * slope + 4 * a + 5 * c + 130 * b))%Q.
Proof.
  unfold score_of; cbn [of_int literal nadd nsub nmul ndiv PyNum_Q].
  rewrite (Qmake_Qdiv c 10), (Qmake_Qdiv 4 10), (Qmake_Qdiv 2 1).
  rewrite !inject_Z_plus, !inject_Z_mult.
  change (inject_Z 2) with 2%Q. change (inject_Z 5) with 5%Q.
  change (inject_Z 3) with 3%Q. change (inject_Z 0) with 0%Q.
  change (inject_Z 4) with 4%Q. change (inject_Z 130) with 130%Q.
  change (inject_Z (Zpos 10)) with 10%Q. change (inject_Z (Zpos 1)) with 1%Q.
  field.
Qed.

(* ================================================================== *)
(** ** The readings of Auto mode *)
(* ================================================================== *)

(** A reading drawn in Auto mode lies on the grid of the sliders. *)
Lemma drawn_reading_on_grid (rd : Q * Q * Q) :
  drawn_reading rd ->
  exists a c b : Z,
    (0 <= a <= 200)%Z /\ (0 <= c <= 100)%Z /\ (0 <= b <= 5)%Z
    /\ rd = (inject_Z a, c # 10, inject_Z b).
Proof.
  intros (r & b & g & i & Hr & Hb & ->).
  cbn [of_int round1 nadd nsub nmul PyNum_Q].
  exists r, (tenths (inject_Z 0 + (inject_Z 10 - inject_Z 0) * unit_at g i)), b.
  split; [exact Hr |]. split; [| split; [exact Hb | reflexivity]].
  destruct (unit_at_range g i) as [Hu0 Hu1]. set (u := unit_at g i) in *.
  change (inject_Z 0) with 0%Q. change (inject_Z 10) with 10%Q.
  unfold tenths.
  destruct (round_half_even_near ((0 + (10 - 0) * u) * 10)) as [Hlo Hhi].
  set (m := round_half_even ((0 + (10 - 0) * u) * 10)) in *.
  split.
  - assert (H : (inject_Z (-1) < inject_Z m)%Q)
      by (change (inject_Z (-1)) with (-1)%Q; lra).
    rewrite <- Zlt_Qlt in H. lia.
  - assert (H : (inject_Z m < inject_Z 101)%Q)
      by (change (inject_Z 101) with 101%Q; lra).
    rewrite <- Zlt_Qlt in H. lia.
Qed.

(** X6. In an Auto-mode tick every row of the table carries a reading of
    the grid the sliders offer: an integer rainfall of 0..200, a
    vibration of 0..10 in tenths and an integer blast count of 0..5,
    whatever the six arguments were. *)
Theorem X6_auto_readings_on_slider_grid :
  forall (rain1 vib1 blast1 rain2 vib2 blast2 : Q) (n_intervals : Z)
         (show_dem : bool) (w : World Q),
  exists (out : Outputs Q) (w' : World Q),
    update_dashboard rain1 vib1 blast1 rain2 vib2 blast2 n_intervals show_dem "Auto" w
    = Some (out, w')
    /\ Forall (fun r =>
                 exists a c b : Z,
                   (0 <= a <= 200)%Z /\ (0 <= c <= 100)%Z /\ (0 <= b <= 5)%Z
                   /\ Rainfall r = inject_Z a
                   /\ Vibration r = (c # 10)
                   /\ Blast r = inject_Z b)
              (map row_result (data out)).
Proof.
  intros a1 v1 b1 a2 v2 b2 n sd w.
  destruct (update_dashboard_spec a1 v1 b1 a2 v2 b2 n sd "Auto" w)
    as (rd1 & rd2 & results & layers & g & E & HI & HR & _).
  cbv zeta in E, HR.
  unfold readings_for in HI. change (String.eqb "Auto" "Auto") with true in HI.
  destruct HI as [H1 H2].
  apply drawn_reading_on_grid in H1, H2.
  destruct H1 as (x1 & y1 & z1 & Hx1 & Hy1 & Hz1 & ->).
  destruct H2 as (x2 & y2 & z2 & Hx2 & Hy2 & Hz2 & ->).
  eexists. eexists. split; [exact E |]. rewrite data_results.
  destruct HR as (r1 & r2 & r3 & r4 & -> & R1 & R2 & R3 & R4).
  destruct R1 as (? & ? & _ & _ & ->), R2 as (? & ? & _ & _ & ->),
           R3 as (? & ? & _ & _ & ->), R4 as (? & ? & _ & _ & ->).
  cbn [fst snd Rainfall Vibration Blast].
  repeat apply Forall_cons;
    [ exists x1, y1, z1 | exists x1, y1, z1 | exists x2, y2, z2 | exists x2, y2, z2
    | apply Forall_nil ];
    (split; [assumption |]; split; [assumption |]; split; [assumption |];
     split; [reflexivity |]; split; reflexivity).
Qed.

(* ================================================================== *)
(** ** Counting the draws *)
(* ================================================================== *)

Section DrawCounts.

Context {num : Type} `{PyNum num}.

Lemma iter_advance (n : nat) (g : Rng) :
  Nat.iter n advance g = {| bits := bits g; drawn := n + drawn g |}.
Proof.
  induction n as [| n IH]; [now destruct g |].
  rewrite Nat.iter_succ, IH. reflexivity.
Qed.

Lemma draws_n_count {A} (n m : nat) (c : M num A) (P : A -> Prop) :
  n = m -> draws_n n c P -> draws_n m c P.
Proof. now intros ->. Qed.

Lemma draws_n_ret {A} (a : A) (P : A -> Prop) : P a -> draws_n (num := num) 0 (ret a) P.
Proof.
  intros Ha w. exists a. unfold Nat.iter; cbn [nat_rect]. rewrite set_rng_same. now split.
Qed.

Lemma draws_n_bind {A B} (n m : nat) (c : M num A) (k : A -> M num B)
  (P : A -> Prop) (Q : B -> Prop) :
  draws_n n c P -> (forall a, P a -> draws_n m (k a) Q) -> draws_n (m + n) (bind c k) Q.
Proof.
  intros Hc Hk w.
  destruct (Hc w) as (a & E & Pa).
  destruct (Hk a Pa (set_rng (Nat.iter n advance (rng w)) w)) as (b & E' & Qb).
  exists b. rewrite (bind_some _ _ _ _ _ E), E'. split; [| exact Qb].
  cbn [rng set_rng]. now rewrite Nat.iter_add.
Qed.

Lemma draws_n_lift_option {A} (o : option A) (a : A) (P : A -> Prop) :
  o = Some a -> P a -> draws_n (num := num) 0 (lift_option o) P.
Proof. intros -> Pa. now apply draws_n_ret. Qed.

Lemma draws_n_mapM {A B} (k : nat) (f : A -> M num B) (R : A -> B -> Prop) (l : list A) :
  (forall a, In a l -> draws_n k (f a) (R a)) ->
  draws_n (length l * k) (mapM f l) (Forall2 R l).
Proof.
  induction l as [| a l IH]; intros Hf.
  - apply draws_n_ret. constructor.
  - cbn [mapM length].
    apply draws_n_count with (n := ((0 + length l * k) + k)%nat); [lia |].
    apply draws_n_bind with (P := R a).
    + apply Hf. now left.
    + intros b Rb. apply draws_n_bind with (P := Forall2 R l).
      * apply IH. intros a' Ha'. apply Hf. now right.
      * intros bs Rbs. apply draws_n_ret. now constructor.
Qed.

Lemma draws_n_compute_score (rain vib blast : num) (slope : Z) (det : bool) :
  draws_n (scorer_draws det) (compute_score rain vib blast slope det)
          (scorer_answer rain vib blast slope det).
Proof.
  intros w. destruct det; cbn [scorer_draws]; unfold Nat.iter; cbn [nat_rect].
  - eexists. rewrite set_rng_same. split; [apply compute_score_deterministic |].
    exists w, w. apply compute_score_deterministic.
  - eexists. split; [apply compute_score_stochastic |].
    exists w. eexists. apply compute_score_stochastic.
Qed.

Lemma draws_n_score_bench (det : bool) (gr gv gb : num) (bench_id : string)
  (bench : BenchRec num) :
  find_bench bench_id = Some bench ->
  draws_n (scorer_draws det) (score_bench det gr gv gb bench_id)
          (result_for det (gr, gv, gb) bench_id).
Proof.
  intros Hf. unfold score_bench.
  apply draws_n_count with (n := ((0 + scorer_draws det) + 0)%nat); [lia |].
  eapply draws_n_bind;
    [apply (draws_n_lift_option _ bench (fun b => b = bench) Hf eq_refl) |].
  intros b ->. eapply draws_n_bind; [apply draws_n_compute_score |].
  intros rs Hrs. apply draws_n_ret. exists bench, rs. cbn [fst snd]. now repeat split.
Qed.

Lemma draws_n_layer_circle (det : bool) (r : RiskResult num) (bench : BenchRec num)
  (center : num * num) (layer : Z) :
  draws_n (scorer_draws det) (layer_circle det r bench center layer)
          (layer_of det r bench center layer).
Proof.
  unfold layer_circle.
  apply draws_n_count with (n := (0 + scorer_draws det)%nat); [lia |].
  eapply draws_n_bind; [apply draws_n_compute_score |].
  intros [risk score] Hrs. apply draws_n_ret. exists risk, score.
  replace (2 * layer)%Z with (layer * 2)%Z by apply Z.mul_comm.
  split; [exact Hrs | reflexivity].
Qed.

Lemma draws_n_bench_layers (det : bool) (r : RiskResult num) (bench : BenchRec num) :
  find_bench (Bench r) = Some bench ->
  draws_n (3 * scorer_draws det) (bench_layers det r) (layers_for det r).
Proof.
  intros Hf. unfold bench_layers.
  destruct (find_bench_catalog _ _ Hf) as [Hin _].
  apply draws_n_count with (n := (((0 + 3 * scorer_draws det) + 0) + 0)%nat); [lia |].
  eapply draws_n_bind;
    [apply (draws_n_lift_option _ bench (fun b => b = bench) Hf eq_refl) |].
  intros b ->.
  destruct (catalog_centroid _ Hin) as [center Hcenter].
  eapply draws_n_bind; [apply (draws_n_lift_option _ _ (eq center) Hcenter eq_refl) |].
  intros c <-.
  eapply draws_n_bind;
    [apply (draws_n_mapM (scorer_draws det)); intros layer _;
     apply draws_n_layer_circle |].
  intros circles Hc. apply draws_n_ret. exists bench, center, circles. now repeat split.
Qed.

Lemma draws_n_randint (a b : Z) :
  (a <= b)%Z -> draws_n (num := num) 1 (randint a b) (fun z => (a <= z <= b)%Z).
Proof.
  intros Hab w. eexists. split; [reflexivity |].
  assert (0 <= next_word (rng w) mod (b - a + 1) < b - a + 1)%Z
    by (apply Z.mod_pos_bound; lia).
  lia.
Qed.

Lemma draws_n_uniform (a b : num) :
  draws_n 1 (uniform a b)
          (fun x => exists g i, x = nadd a (nmul (nsub b a) (unit_at g i))).
Proof.
  intros w. eexists. split; [reflexivity |].
  now exists (rng w), (drawn (rng w)).
Qed.

Lemma draws_n_auto_reading : draws_n (num := num) 3 auto_reading drawn_reading.
Proof.
  unfold auto_reading.
  apply draws_n_count with (n := ((((0 + 1) + 1) + 1))%nat); [reflexivity |].
  eapply draws_n_bind; [apply draws_n_randint; lia |]. intros r Hr.
  eapply draws_n_bind; [apply draws_n_uniform |]. intros v (g & i & ->).
  eapply draws_n_bind; [apply draws_n_randint; lia |]. intros b Hb.
  apply draws_n_ret. now exists r, b, g, i.
Qed.

Lemma draws_n_tick_readings (rain1 vib1 blast1 rain2 vib2 blast2 : num) (mode : string) :
  draws_n (if String.eqb mode "Auto" then 6 else 0)
          (tick_readings rain1 vib1 blast1 rain2 vib2 blast2 mode)
          (fun rd => readings_for mode (rain1, vib1, blast1) (rain2, vib2, blast2)
                                  (fst rd) (snd rd)).
Proof.
  unfold tick_readings, readings_for. destruct (String.eqb mode "Auto").
  - apply draws_n_count with (n := (((0 + 3) + 3))%nat); [reflexivity |].
    eapply draws_n_bind; [apply draws_n_auto_reading |]. intros a Ha.
    eapply draws_n_bind; [apply draws_n_auto_reading |]. intros b Hb.
    apply draws_n_ret. now split.
  - apply draws_n_ret. now split.
Qed.

Lemma draws_n_score_all (det : bool) (rd1 rd2 : num * num * num) :
  draws_n (4 * scorer_draws det)
          (score_all det [({| g_benches := ["Bench 1"; "Bench 2"] |}, rd1);
                          ({| g_benches := ["Bench 3"; "Bench 4"] |}, rd2)])
          (results_for det rd1 rd2).
Proof.
  unfold score_all.
  apply draws_n_count with (n := (0 + 2 * (2 * scorer_draws det))%nat); [lia |].
  eapply draws_n_bind with
    (P := Forall2 (fun gi rs => Forall2 (result_for det (snd gi)) (g_benches (fst gi)) rs)
                  [({| g_benches := ["Bench 1"; "Bench 2"] |}, rd1);
                   ({| g_benches := ["Bench 3"; "Bench 4"] |}, rd2)]).
  - apply (draws_n_mapM (2 * scorer_draws det)).
    intros [g [[gr gv] gb]] Hin. unfold score_group.
    cbn [fst snd In] in *.
    destruct Hin as [E | [E | []]]; inversion E; subst;
      apply (draws_n_mapM (scorer_draws det)
               (score_bench det gr gv gb) (result_for det (gr, gv, gb)));
      intros bench_id Hid; cbn [In] in Hid;
      destruct Hid as [<- | [<- | []]];
      eapply draws_n_score_bench; reflexivity.
  - intros rss HR. apply draws_n_ret.
    inversion HR as [| gi1 rs1 l1 l1' Ha HR1]; subst; clear HR.
    inversion HR1 as [| gi2 rs2 l2 l2' Hb HR2]; subst; clear HR1.
    inversion HR2; subst; clear HR2.
    cbn [fst snd g_benches] in Ha, Hb.
    inversion Ha as [| ? x1 ? ? Hx1 Ha1]; subst; clear Ha.
    inversion Ha1 as [| ? x2 ? ? Hx2 Ha2]; subst; clear Ha1.
    inversion Ha2; subst; clear Ha2.
    inversion Hb as [| ? x3 ? ? Hx3 Hb1]; subst; clear Hb.
    inversion Hb1 as [| ? x4 ? ? Hx4 Hb2]; subst; clear Hb1.
    inversion Hb2; subst; clear Hb2.
    exists x1, x2, x3, x4. cbn [concat app]. now repeat split.
Qed.

(** A tick, with its draws counted: the readings of its mode, the four
    results, the layers of each, the record pushed on the history, and
    the generator advanced by the draws of the mode.  The timer count and
    the overlay switch enter the outputs at the very end only. *)
Lemma update_dashboard_run (rain1 vib1 blast1 rain2 vib2 blast2 : num)
  (mode : string) (w : World num) :
  exists (rd1 rd2 : num * num * num) (results : list (RiskResult num))
         (layers : list (list (MapItem num))),
    let det := String.eqb mode "Manual" in
    let h := push (history_record (fst (fst rd1)) (snd (fst rd1)) (snd rd1)
                                  (fst (fst rd2)) (snd (fst rd2)) (snd rd2) results)
                  (history w) in
    readings_for mode (rain1, vib1, blast1) (rain2, vib2, blast2) rd1 rd2
    /\ results_for det rd1 rd2 results
    /\ Forall2 (layers_for det) results layers
    /\ forall (n_intervals : Z) (show_dem : bool),
         update_dashboard rain1 vib1 blast1 rain2 vib2 blast2 n_intervals show_dem mode w
         = Some (outputs_of h results layers show_dem (dem_overlay w),
                 set_rng (Nat.iter (draws_of_mode mode) advance (rng w))
                         (set_history h w)).
Proof.
  destruct (draws_n_tick_readings rain1 vib1 blast1 rain2 vib2 blast2 mode w)
    as ([rd1 rd2] & E1 & P1).
  set (n1 := (if String.eqb mode "Auto" then 6 else 0)%nat) in *.
  set (det := String.eqb mode "Manual").
  destruct (draws_n_score_all det rd1 rd2 (set_rng (Nat.iter n1 advance (rng w)) w))
    as (results & E2 & P2).
  cbn [rng set_rng] in E2.
  pose proof P2 as (x1 & x2 & x3 & x4 & -> & R1 & R2 & R3 & R4).
  set (h := push (history_record (fst (fst rd1)) (snd (fst rd1)) (snd rd1)
                                 (fst (fst rd2)) (snd (fst rd2)) (snd rd2)
                                 [x1; x2; x3; x4])
                 (history w)).
  assert (HL : draws_n (4 * (3 * scorer_draws det))
                       (mapM (bench_layers det) [x1; x2; x3; x4])
                       (Forall2 (layers_for det) [x1; x2; x3; x4])).
  { apply (draws_n_mapM (3 * scorer_draws det)). intros r Hr.
    cbn [In] in Hr.
    destruct R1 as (c1 & s1 & F1 & _ & Q1), R2 as (c2 & s2 & F2 & _ & Q2),
             R3 as (c3 & s3 & F3 & _ & Q3), R4 as (c4 & s4 & F4 & _ & Q4).
    destruct Hr as [<- | [<- | [<- | [<- | []]]]];
      eapply draws_n_bench_layers; subst; cbn [Bench]; eassumption. }
  destruct (HL (set_history h
                  (set_rng (Nat.iter (4 * scorer_draws det) advance
                                     (Nat.iter n1 advance (rng w))) w)))
    as (layers & E3 & P3).
  cbn [rng set_rng set_history] in E3.
  exists rd1, rd2, [x1; x2; x3; x4], layers. cbv zeta. fold det h.
  split; [exact P1 |]. split; [exact P2 |]. split; [exact P3 |].
  intros n sd. unfold update_dashboard.
  rewrite (bind_some _ _ _ _ _ E1).
  destruct rd1 as [[r1 v1] b1], rd2 as [[r2 v2] b2].
  cbn [groups nth_error lift_option].
  unfold bind at 1. unfold ret at 1. unfold bind at 1. unfold ret at 1.
  fold det. rewrite (bind_some _ _ _ _ _ E2).
  unfold bind at 1. unfold append_history at 1.
  unfold bind at 1. unfold get_history at 1.
  unfold bind at 1. unfold ret at 1.
  cbn [fst snd] in *.
  rewrite (bind_some _ _ _ _ _ E3).
  unfold bind, get_dem_overlay, ret. cbn [dem_overlay set_rng set_history rng history].
  fold h. f_equal. f_equal. unfold set_rng, set_history.
  cbn [history rng dem_overlay]. f_equal.
  rewrite <- !Nat.iter_add. f_equal.
  unfold draws_of_mode, n1, det, scorer_draws.
  destruct (String.eqb mode "Auto"), (String.eqb mode "Manual"); reflexivity.
Qed.

End DrawCounts.

(** X7. A tick never raises and leaves the stream of the random source
    as it is, advanced by a number of draws fixed by the mode alone: none
    in Manual mode, 38 in Auto mode (six readings, then two draws for each
    of the four primary and twelve layer calls of the scorer), 32 in any
    other mode.  The overlay is left as it is. *)
Theorem X7_draws_per_tick :
  forall (num : Type) (P : PyNum num) (rain1 vib1 blast1 rain2 vib2 blast2 : num)
         (n_intervals : Z) (show_dem : bool) (mode : string) (w : World num),
  exists (out : Outputs num) (w' : World num),
    update_dashboard rain1 vib1 blast1 rain2 vib2 blast2 n_intervals show_dem mode w
    = Some (out, w')
    /\ bits (rng w') = bits (rng w)
    /\ drawn (rng w')
       = ((if String.eqb mode "Manual" then 0
           else if String.eqb mode "Auto" then 38 else 32) + drawn (rng w))%nat
    /\ dem_overlay w' = dem_overlay w.
Proof.
  intros num P a1 v1 b1 a2 v2 b2 n sd mode w.
  destruct (update_dashboard_run a1 v1 b1 a2 v2 b2 mode w)
    as (rd1 & rd2 & results & layers & _ & _ & _ & E).
  cbv zeta in E. eexists. eexists. split; [apply E |].
  cbn [rng set_rng set_history dem_overlay]. rewrite iter_advance.
  cbn [bits drawn]. split; [reflexivity |]. split; [| reflexivity].
  unfold draws_of_mode.
  destruct (String.eqb mode "Manual") eqn:Em; destruct (String.eqb mode "Auto") eqn:Ea;
    try reflexivity.
  apply String.eqb_eq in Em, Ea. subst. discriminate.
Qed.

(** X8. The outcome of a tick does not depend on the timer's count
    [n_intervals], and in Auto mode it does not depend on the six slider
    values either. *)
Theorem X8_ignored_arguments :
  forall (num : Type) (P : PyNum num) (rain1 vib1 blast1 rain2 vib2 blast2 : num)
         (n_intervals : Z) (show_dem : bool) (mode : string) (w : World num),
    (forall n_intervals' : Z,
        update_dashboard rain1 vib1 blast1 rain2 vib2 blast2 n_intervals' show_dem mode w
        = update_dashboard rain1 vib1 blast1 rain2 vib2 blast2 n_intervals show_dem
                           mode w)
    /\ (forall rain1' vib1' blast1' rain2' vib2' blast2' : num,
           update_dashboard rain1' vib1' blast1' rain2' vib2' blast2' n_intervals
                            show_dem "Auto" w
           = update_dashboard rain1 vib1 blast1 rain2 vib2 blast2 n_intervals show_dem
                              "Auto" w).
Proof.
  intros num P a1 v1 b1 a2 v2 b2 n sd mode w. split.
  - intros n'. unfold update_dashboard. reflexivity.
  - intros a1' v1' b1' a2' v2' b2'. unfold update_dashboard, tick_readings.
    change (String.eqb "Auto" "Auto") with true. cbv iota. reflexivity.
Qed.



(* ================================================================== *)
(** ** The charts *)
(* ================================================================== *)

Lemma dict_get_key {num : Type} `{PyNum num} (k : string) (d : PyDict num) :
  In k (map fst d) -> dict_get k d <> None.
Proof.
  induction d as [| [k' v] d IH]; cbn [map fst In dict_get]; [tauto |].
  intros [-> | Hin].
  - now rewrite String.eqb_refl.
  - destruct (String.eqb k' k); [discriminate | now apply IH].
Qed.

Lemma column_full {num : Type} `{PyNum num} (c : string) (h : list (PyDict num)) :
  In c record_fields ->
  Forall (fun rec => map fst rec = record_fields) h ->
  length (column c h) = length h /\ Forall (fun v => v <> None) (column c h).
Proof.
  intros Hc Hh. unfold column. split; [apply length_map |].
  apply Forall_map. eapply Forall_impl; [| exact Hh].
  intros rec Hrec. apply dict_get_key. now rewrite Hrec.
Qed.

(** X10. After any tick of a run from the start, each of the three
    charts has its named traces (Rain, Vibration and Blast for the two
    groups, one trace per bench of the catalog for the trend), and every
    trace has exactly one point per retained record, at most 200, with no
    gap. *)
Theorem X10_chart_traces :
  forall (num : Type) (P : PyNum num) (recs : list (PyDict num)) (w : World num),
    reached recs w ->
    forall (rain1 vib1 blast1 rain2 vib2 blast2 : num) (n_intervals : Z)
           (show_dem : bool) (mode : string),
    exists (out : Outputs num) (w' : World num),
      update_dashboard rain1 vib1 blast1 rain2 vib2 blast2 n_intervals show_dem mode w
      = Some (out, w')
      /\ (0 < length (history w') <= 200)%nat
      /\ map fst (fig_traces (env1_fig out)) = ["Rain"; "Vibration"; "Blast"]
      /\ map fst (fig_traces (env2_fig out)) = ["Rain"; "Vibration"; "Blast"]
      /\ map fst (fig_traces (bench_trend out)) = map (@b_id num) benches
      /\ Forall (fun fig =>
                   Forall (fun trace =>
                             length (snd trace) = length (history w')
                             /\ Forall (fun v => v <> None) (snd trace))
                          (fig_traces fig))
                [env1_fig out; env2_fig out; bench_trend out].
Proof.
  intros num P recs w Hw a1 v1 b1 a2 v2 b2 n sd mode.
  destruct (update_dashboard_spec a1 v1 b1 a2 v2 b2 n sd mode w)
    as (rd1 & rd2 & results & layers & g & E & _).
  cbv zeta in E. eexists. eexists. split; [exact E |].
  pose proof (reached_tick _ _ _ _ _ _ _ _ _ _ _ _ _ Hw E) as Hw'.
  pose proof (reached_fields _ _ Hw') as Hf.
  pose proof (reached_history _ _ Hw') as Hh.
  cbn [history set_rng set_history] in *.
  set (h := push _ (history w)) in *.
  split.
  { split; [unfold h; rewrite push_spec, length_app; cbn [length]; lia |].
    rewrite Hh, history_window, length_skipn. lia. }
  unfold outputs_of; cbn [env1_fig env2_fig bench_trend].
  do 3 (split; [reflexivity |]).
  unfold env_fig, bench_fig; cbn [fig_traces].
  repeat constructor; cbn [snd b_id];
    (apply column_full; [cbn [record_fields In]; tauto | exact Hf]).
Qed.

Lemma X10_chart_traces_witness :
  exists (out : Outputs Q) (w' : World Q),
    update_dashboard 10%Q 1%Q 0%Q 10%Q 1%Q 0%Q 0 false "Manual" sample_world
    = Some (out, w')
    /\ (0 < length (history w') <= 200)%nat.
Proof.
  destruct (X10_chart_traces Q PyNum_Q (history sample_world) sample_world
              sample_world_reached 10%Q 1%Q 0%Q 10%Q 1%Q 0%Q 0 false "Manual")
    as (out & w' & E & Hlen & _).
  exists out, w'. split; [exact E | exact Hlen].
Defined.

(* ================================================================== *)
(** ** The catalog and its lookups *)
(* ================================================================== *)

(** X12. The ids of the catalog are distinct, so looking one up returns
    that very bench; an id outside the catalog has no bench and scoring it
    raises.  The members of the groups are exactly the ids of the catalog,
    each in one group only, which is why a tick never raises. *)
Theorem X12_bench_lookup :
  forall (num : Type) (P : PyNum num),
    (forall bench : BenchRec num,
        In bench benches -> find_bench (b_id bench) = Some bench)
    /\ (forall (bench_id : string) (bench : BenchRec num),
           find_bench bench_id = Some bench ->
           In bench benches /\ b_id bench = bench_id)
    /\ (forall bench_id : string,
           ~ In bench_id (map (@b_id num) benches) ->
           find_bench (num := num) bench_id = None
           /\ forall (det : bool) (gr gv gb : num) (w : World num),
                score_bench det gr gv gb bench_id w = None)
    /\ (forall bench_id : string,
           In bench_id (concat (map g_benches groups))
           <-> In bench_id (map (@b_id num) benches))
    /\ NoDup (concat (map g_benches groups)).
Proof.
  intros num P. split; [| split; [| split; [| split]]].
  - intros bench Hin. unfold benches in Hin. cbn [In] in Hin.
    destruct Hin as [<- | [<- | [<- | [<- | []]]]]; reflexivity.
  - apply find_bench_catalog.
  - intros bench_id Hid.
    assert (Hn : find_bench (num := num) bench_id = None).
    { destruct (find_bench bench_id) as [bench |] eqn:E; [| reflexivity].
      destruct (find_bench_catalog _ _ E) as [Hin <-].
      exfalso. apply Hid. now apply in_map. }
    split; [exact Hn |]. intros det gr gv gb w.
    unfold score_bench, bind. now rewrite Hn.
  - intros bench_id. reflexivity.
  - cbn [groups map g_benches concat app].
    repeat (constructor; [cbn [In]; intuition discriminate |]). constructor.
Qed.

(* ================================================================== *)
(** ** Colours, glyphs and the mode switch *)
(* ================================================================== *)

(** X13. The colour and the glyph looked up for the text of a level are
    those of the level, distinct levels have distinct colours and distinct
    glyphs, and any other text (a different case, the empty string) gets
    the colour and the glyph of Low. *)
Theorem X13_level_colours :
  (forall level : RiskLevel,
      risk_color_of (risk_label level) = risk_color level
      /\ risk_icon_of (risk_label level) = risk_icon level)
  /\ (forall level level' : RiskLevel,
         risk_color level = risk_color level' -> level = level')
  /\ (forall level level' : RiskLevel,
         risk_icon level = risk_icon level' -> level = level')
  /\ (forall text : string,
         (forall level : RiskLevel, text <> risk_label level) ->
         risk_color_of text = risk_color Low /\ risk_icon_of text = risk_icon Low).
Proof.
  split; [| split; [| split]].
  - intros []; split; reflexivity.
  - intros [] []; cbn [risk_color]; intros E; try reflexivity; discriminate.
  - intros [] []; cbn [risk_icon]; intros E; try reflexivity; discriminate.
  - intros text Hno. unfold risk_color_of, risk_icon_of.
    destruct (String.eqb text "Low") eqn:EL;
      [apply String.eqb_eq in EL; exfalso; now apply (Hno Low) |].
    destruct (String.eqb text "Medium") eqn:EM;
      [apply String.eqb_eq in EM; exfalso; now apply (Hno Medium) |].
    destruct (String.eqb text "High") eqn:EH;
      [apply String.eqb_eq in EH; exfalso; now apply (Hno High) |].
    split; reflexivity.
Qed.

(** X14. [toggle_mode] shows exactly one of the two control panels, the
    manual one exactly in Manual mode, and disables the timer exactly in
    Manual mode.  So the timer is off exactly when a tick leaves the
    random source alone, and whenever it is on a tick makes at least 32
    draws. *)
Theorem X14_mode_switch :
  forall (num : Type) (P : PyNum num) (mode : string),
    (manual_display (toggle_mode mode) = "block"
     /\ auto_display (toggle_mode mode) = "none"
     \/ manual_display (toggle_mode mode) = "none"
        /\ auto_display (toggle_mode mode) = "block")
    /\ (manual_display (toggle_mode mode) = "block" <-> mode = "Manual")
    /\ (timer_disabled (toggle_mode mode) = true <-> mode = "Manual")
    /\ forall (rain1 vib1 blast1 rain2 vib2 blast2 : num) (n_intervals : Z)
              (show_dem : bool) (w : World num),
       exists (out : Outputs num) (w' : World num),
         update_dashboard rain1 vib1 blast1 rain2 vib2 blast2 n_intervals show_dem
                          mode w = Some (out, w')
         /\ (timer_disabled (toggle_mode mode) = true -> rng w' = rng w)
         /\ (timer_disabled (toggle_mode mode) = false ->
             (32 + drawn (rng w) <= drawn (rng w'))%nat).
Proof.
  intros num P mode. unfold toggle_mode.
  destruct (String.eqb mode "Manual") eqn:Em; cbn [manual_display auto_display timer_disabled].
  - apply String.eqb_eq in Em. subst mode.
    split; [left; now split |]. split; [tauto |]. split; [tauto |].
    intros a1 v1 b1 a2 v2 b2 n sd w.
    destruct (update_dashboard_run a1 v1 b1 a2 v2 b2 "Manual" w)
      as (rd1 & rd2 & results & layers & _ & _ & _ & E).
    cbv zeta in E. eexists. eexists. split; [apply E |].
    split; [| discriminate]. intros _. reflexivity.
  - split; [right; now split |].
    split; [split; [discriminate | intros ->; discriminate] |].
    split; [split; [discriminate | intros ->; discriminate] |].
    intros a1 v1 b1 a2 v2 b2 n sd w.
    destruct (update_dashboard_run a1 v1 b1 a2 v2 b2 mode w)
      as (rd1 & rd2 & results & layers & _ & _ & _ & E).
    cbv zeta in E. eexists. eexists. split; [apply E |].
    split; [discriminate |]. intros _.
    cbn [rng set_rng set_history]. rewrite iter_advance. cbn [drawn].
    unfold draws_of_mode. rewrite Em. destruct (String.eqb mode "Auto"); lia.
Qed.

(* ================================================================== *)
(** ** The record of a tick *)
(* ================================================================== *)

Section DictFacts.

Context {num : Type} `{PyNum num}.

Lemma dict_get_set_same (k : string) (v : num) (d : PyDict num) :
  dict_get k (dict_set k v d) = Some v.
Proof.
  induction d as [| [k' v'] d IH]; cbn [dict_set dict_get].
  - now rewrite String.eqb_refl.
  - destruct (String.eqb k' k) eqn:E; cbn [dict_get]; now rewrite E.
Qed.

Lemma dict_get_set_other (k k' : string) (v : num) (d : PyDict num) :
  k <> k' -> dict_get k' (dict_set k v d) = dict_get k' d.
Proof.
  intros Hk. induction d as [| [k0 v0] d IH]; cbn [dict_set dict_get].
  - destruct (String.eqb k k') eqn:E; [apply String.eqb_eq in E; contradiction |].
    reflexivity.
  - destruct (String.eqb k0 k) eqn:E; cbn [dict_get].
    + apply String.eqb_eq in E. subst k0.
      destruct (String.eqb k k') eqn:E'; [apply String.eqb_eq in E'; contradiction |].
      reflexivity.
    + now rewrite IH.
Qed.

Lemma dict_set_keys (k k' : string) (v : num) (d : PyDict num) :
  In k' (map fst (dict_set k v d)) <-> k' = k \/ In k' (map fst d).
Proof.
  induction d as [| [k0 v0] d IH]; cbn [dict_set map fst In].
  - intuition.
  - destruct (String.eqb k0 k) eqn:E; cbn [map fst In].
    + apply String.eqb_eq in E. subst k0. intuition.
    + rewrite IH. intuition.
Qed.

Lemma dict_set_NoDup (k : string) (v : num) (d : PyDict num) :
  NoDup (map fst d) -> NoDup (map fst (dict_set k v d)).
Proof.
  induction d as [| [k0 v0] d IH]; cbn [dict_set map fst]; intros Hd.
  - repeat constructor. intros [].
  - inversion Hd as [| ? ? Hk0 Hrest]; subst.
    destruct (String.eqb k0 k) eqn:E; cbn [map fst].
    + now constructor.
    + constructor; [| now apply IH].
      rewrite dict_set_keys. intros [-> | Hin]; [| contradiction].
      now rewrite String.eqb_refl in E.
Qed.

Lemma dict_update_cons (d : PyDict num) (kv : string * num) (items : list (string * num)) :
  dict_update d (kv :: items) = dict_update (dict_set (fst kv) (snd kv) d) items.
Proof. reflexivity. Qed.

Lemma dict_update_keys (k : string) (d : PyDict num) (items : list (string * num)) :
  In k (map fst (dict_update d items)) <-> In k (map fst items) \/ In k (map fst d).
Proof.
  revert d. induction items as [| [k0 v0] items IH]; intros d.
  - cbn. intuition.
  - rewrite dict_update_cons, IH, dict_set_keys. cbn [map fst snd In]. intuition.
Qed.

Lemma dict_update_NoDup (d : PyDict num) (items : list (string * num)) :
  NoDup (map fst d) -> NoDup (map fst (dict_update d items)).
Proof.
  revert d. induction items as [| kv items IH]; intros d Hd; [exact Hd |].
  rewrite dict_update_cons. apply IH. now apply dict_set_NoDup.
Qed.

(** Updating with items that do not mention a key leaves its entry. *)
Lemma dict_get_update_other (k : string) (d : PyDict num) (items : list (string * num)) :
  ~ In k (map fst items) -> dict_get k (dict_update d items) = dict_get k d.
Proof.
  revert d. induction items as [| [k0 v0] items IH]; intros d Hk; [reflexivity |].
  cbn [map fst In] in Hk. rewrite dict_update_cons, IH by tauto.
  cbn [fst snd]. apply dict_get_set_other. intros ->. tauto.
Qed.

(** The last item given for a key is the one an update leaves. *)
Lemma dict_get_update_last (k : string) (v : num) (d : PyDict num)
  (before after : list (string * num)) :
  ~ In k (map fst after) ->
  dict_get k (dict_update d (before ++ (k, v) :: after)) = Some v.
Proof.
  intros Hk. unfold dict_update. rewrite fold_left_app. cbn [fold_left fst snd].
  fold (dict_update (dict_set k v (fold_left (fun d kv => dict_set (fst kv) (snd kv) d)
                                             before d)) after).
  rewrite dict_get_update_other by exact Hk. apply dict_get_set_same.
Qed.

(** Updating with a dict gives its entries. *)
Lemma dict_get_update_dict (k : string) (v : num) (d e : PyDict num) :
  NoDup (map fst e) -> dict_get k e = Some v ->
  dict_get k (dict_update d e) = Some v.
Proof.
  revert d. induction e as [| [k0 v0] e IH]; intros d He Hget; [discriminate |].
  cbn [map fst] in He. inversion He as [| ? ? Hk0 Hrest]; subst.
  rewrite dict_update_cons. cbn [fst snd dict_get] in *.
  destruct (String.eqb k0 k) eqn:E.
  - apply String.eqb_eq in E. subst k0. inversion Hget; subst.
    rewrite dict_get_update_other by exact Hk0. apply dict_get_set_same.
  - now apply IH.
Qed.

End DictFacts.

(** X15. For any list of results, the record built for the history maps
    a bench id to the [Score] of the last result carrying that id, and
    keeps each of the six readings under its key unless a result carries
    that key as its bench id. *)
Theorem X15_record_lookup :
  forall (num : Type) (P : PyNum num) (rain1 vib1 blast1 rain2 vib2 blast2 : num)
         (results : list (RiskResult num)),
    (forall (before after : list (RiskResult num)) (r : RiskResult num),
        results = before ++ r :: after ->
        Forall (fun r' => Bench r' <> Bench r) after ->
        dict_get (Bench r) (history_record rain1 vib1 blast1 rain2 vib2 blast2 results)
        = Some (Score r))
    /\ (forall (k : string) (v : num),
           In (k, v) [("rain1", rain1); ("vib1", vib1); ("blast1", blast1);
                      ("rain2", rain2); ("vib2", vib2); ("blast2", blast2)] ->
           Forall (fun r => Bench r <> k) results ->
           dict_get k (history_record rain1 vib1 blast1 rain2 vib2 blast2 results)
           = Some v).
Proof.
  intros num P a1 v1 b1 a2 v2 b2 results. unfold history_record. split.
  - intros before after r -> Hafter.
    apply dict_get_update_dict; [apply dict_update_NoDup; constructor |].
    unfold dict_of. rewrite map_app. cbn [map].
    apply dict_get_update_last.
    rewrite map_map. cbn [fst]. intros Hin. apply in_map_iff in Hin.
    destruct Hin as (r' & Hid & Hin). rewrite Forall_forall in Hafter.
    now apply (Hafter r' Hin).
  - intros k v Hin Hno.
    rewrite dict_get_update_other.
    + cbn [In] in Hin.
      destruct Hin as [E | [E | [E | [E | [E | [E | []]]]]]]; inversion E; subst;
        reflexivity.
    + unfold dict_of. rewrite dict_update_keys. cbn [map In].
      rewrite map_map. cbn [fst]. intros [Hk | []]. apply in_map_iff in Hk.
      destruct Hk as (r & Hid & Hr). rewrite Forall_forall in Hno.
      now apply (Hno r Hr).
Qed.

(* ================================================================== *)
(** ** What is stored *)
(* ================================================================== *)

(** At a tie the even neighbour is taken. *)
Lemma round_half_even_nearest (q : Q) : nearest_integer q (round_half_even q).
Proof.
  split; [apply round_half_even_near |].
  unfold round_half_even.
  pose proof (Qfloor_le q) as Hlo. pose proof (Qlt_floor q) as Hhi.
  rewrite inject_Z_plus in Hhi. change (inject_Z 1) with 1%Q in Hhi.
  destruct (q - inject_Z (Qfloor q) ?= 1 # 2)%Q eqn:E.
  - intros _. destruct (Z.even (Qfloor q)) eqn:Ev; [exact Ev |].
    rewrite Z.even_add, Ev. reflexivity.
  - apply Qlt_alt in E. intros [Ht | Ht]; exfalso; lra.
  - apply Qgt_alt in E. rewrite inject_Z_plus. change (inject_Z 1) with 1%Q.
    intros [Ht | Ht]; exfalso; lra.
Qed.

Lemma Q_round1_rounded (q : Q) : Q_rounded_to_tenths q (round1 q).
Proof.
  exists (tenths q). split; [apply round_half_even_nearest | reflexivity].
Qed.

Lemma f_round1_rounded (x : float) : f_rounded_to_tenths x (round1 x).
Proof.
  unfold f_rounded_to_tenths. cbn [round1 PyNum_float]. unfold f_round1.
  destruct (Prim2SF x) as [s | s | | s m e]; try reflexivity.
  destruct (e <? -3)%Z eqn:Ee.
  - apply Z.ltb_lt in Ee.
    destruct (-3 <=? e)%Z eqn:Ee'; [apply Z.leb_le in Ee'; lia |].
    exists (tenths (magnitude m e)).
    split; [apply round_half_even_nearest | reflexivity].
  - apply Z.ltb_ge in Ee.
    destruct (-3 <=? e)%Z eqn:Ee'; [reflexivity | apply Z.leb_gt in Ee'; lia].
Qed.

(** C10. The [Score] of every row of the table is [round(score, 1)] of
    the score the scorer answered on the row's reading and slope, and it
    is this value that the record appended to the history holds under the
    bench id, hence what the bench trend chart plots last and what the
    export is written from.  The layers of the map are scored again from
    the reading fields of the result and the slope of the bench, never
    from the stored [Score].  [round(score, 1)] is the decimal [k/10]
    nearest to the score (the even [k] at a tie): the rational itself in
    exact arithmetic, its binary64 in the arithmetic the code runs.  The
    stored value differs from the raw score: in binary64 the Manual
    reading (23, 0, 0) scores 26.700000000000003 on Bench 1 and 26.7 is
    stored. *)
Theorem C10_stored_scores_are_rounded :
  (forall (num : Type) (P : PyNum num) (to_csv : list (PyDict num) -> string)
          (rain1 vib1 blast1 rain2 vib2 blast2 : num) (n_intervals : Z)
          (show_dem : bool) (mode : string) (w : World num),
      exists (out : Outputs num) (w' : World num) (rd1 rd2 : num * num * num)
             (results : list (RiskResult num)) (rec : PyDict num)
             (layers : list (list (MapItem num))),
        let kept := if (length (history w) <? 200)%nat then history w
                    else tl (history w) in
        update_dashboard rain1 vib1 blast1 rain2 vib2 blast2 n_intervals show_dem mode w
        = Some (out, w')
        /\ map row_result (data out) = results
        /\ results_for (String.eqb mode "Manual") rd1 rd2 results
        /\ Forall (fun r => exists raw : num,
                             scorer_answer (Rainfall r) (Vibration r) (Blast r) (Slope r)
                                           (String.eqb mode "Manual") (Risk r, raw)
                             /\ Score r = round1 raw) results
        /\ history w' = kept ++ [rec]
        /\ Forall (fun r => dict_get (Bench r) rec = Some (Score r)) results
        /\ Forall (fun r => In (Bench r, column (Bench r) kept ++ [Some (Score r)])
                               (fig_traces (bench_trend out))) results
        /\ export_csv to_csv n_intervals w'
           = Some ({| content := to_csv (kept ++ [rec]); filename := "risk_report.csv" |},
                   w')
        /\ map_items out = furniture ++ concat layers ++ dem_items show_dem (dem_overlay w)
        /\ Forall2 (layers_for (String.eqb mode "Manual")) results layers)
  /\ (forall q : Q, Q_rounded_to_tenths q (round1 q))
  /\ (forall x : float, f_rounded_to_tenths x (round1 x))
  /\ (exists (out : Outputs float) (w' : World float),
         update_dashboard (of_int 23) (of_int 0) (of_int 0) (of_int 23) (of_int 0)
                          (of_int 0) 0 false "Manual" (initial_world sample_rng None)
         = Some (out, w')
         /\ compute_score (of_int 23) (of_int 0) (of_int 0) 35 true
                          (initial_world sample_rng None)
            = Some ((Low, 26.700000000000003%float), initial_world sample_rng None)
         /\ map (fun row => Score (row_result row)) (data out)
            = [26.7%float; 34.2%float; 31.7%float; 39.2%float]
         /\ map (dict_get "Bench 1") (history w') = [Some 26.7%float]
         /\ PrimFloat.eqb 26.700000000000003%float 26.7%float = false
         /\ literal 267 10 = 26.7%float)
  /\ (exists (rs : RiskLevel * Q) (w' : World Q),
         compute_score 10%Q 1%Q 2%Q 35 false (initial_world sample_rng None)
         = Some (rs, w')
         /\ ~ (round1 (snd rs) == snd rs)%Q).
Proof.
  split; [| split; [exact Q_round1_rounded | split; [exact f_round1_rounded | split]]].
  - intros num P to_csv a1 v1 b1 a2 v2 b2 n sd mode w.
    destruct (update_dashboard_spec a1 v1 b1 a2 v2 b2 n sd mode w)
      as (rd1 & rd2 & results & layers & g & E & _ & HR & HL).
    cbv zeta in E, HR, HL.
    pose proof (history_record_scores _ _ _ _ (fst (fst rd1)) (snd (fst rd1)) (snd rd1)
                  (fst (fst rd2)) (snd (fst rd2)) (snd rd2) HR) as Hrec.
    set (rec := history_record _ _ _ _ _ _ results) in *.
    eexists. eexists. exists rd1, rd2, results, rec, layers. cbv zeta.
    split; [exact E |]. rewrite data_results.
    unfold export_csv, bind, get_history, ret.
    cbn [history set_rng set_history]. rewrite push_spec.
    set (kept := if (length (history w) <? 200)%nat then history w else tl (history w)).
    split; [reflexivity |]. split; [exact HR |].
    split; [exact (results_for_rows _ _ _ _ HR) |].
    split; [reflexivity |]. split; [exact Hrec |].
    split; [| split; [reflexivity | split; [reflexivity | exact HL]]].
    unfold outputs_of; cbn [bench_trend]. unfold bench_fig; cbn [fig_traces].
    rewrite Forall_forall in Hrec. apply Forall_forall. intros r Hr.
    assert (Hb : exists bench, In bench benches /\ b_id bench = Bench r).
    { destruct HR as (r1 & r2 & r3 & r4 & -> & R1 & R2 & R3 & R4).
      cbn [In] in Hr.
      destruct Hr as [<- | [<- | [<- | [<- | []]]]];
        match goal with
        | R : result_for _ _ _ ?r |- exists _, _ /\ _ = Bench ?r =>
            destruct R as (bench & rs & Hf & _ & ->);
            destruct (find_bench_catalog _ _ Hf) as [Hin Hid];
            exists bench; now split
        end. }
    destruct Hb as (bench & Hin & Hid).
    apply in_map_iff. exists bench. split; [| exact Hin].
    rewrite Hid. f_equal. unfold column. rewrite map_app. cbn [map].
    now rewrite (Hrec r Hr).
  - eexists. eexists. split; [reflexivity |].
    split; [vm_compute; reflexivity |]. split; [vm_compute; reflexivity |].
    split; [vm_compute; reflexivity |]. split; vm_compute; reflexivity.
  - eexists. eexists. split; [apply compute_score_stochastic |].
    cbn [snd fst]. intros Hq. vm_compute in Hq. discriminate.
Qed.

(* ================================================================== *)
(** ** The centre and the circles of a bench *)
(* ================================================================== *)

Lemma fold_left_Qplus (l : list Q) (a : Q) :
  (fold_left Qplus l a == a + fold_right Qplus 0 l)%Q.
Proof.
  revert a. induction l as [| x l IH]; intros a; cbn [fold_left fold_right].
  - ring.
  - rewrite IH. ring.
Qed.

(** In exact arithmetic [centroid] is the pair of the means of the listed
    latitudes and longitudes. *)
Lemma centroid_Q_mean (p : Q * Q) (coords : list (Q * Q)) :
  exists center : Q * Q,
    centroid (p :: coords) = Some center
    /\ (fst center == Q_mean (map fst (p :: coords)))%Q
    /\ (snd center == Q_mean (map snd (p :: coords)))%Q.
Proof.
  eexists. split; [reflexivity |]. cbn [fst snd].
  unfold py_sum, Q_mean; cbn [nadd ndiv of_int PyNum_Q].
  rewrite !fold_left_Qplus. change (inject_Z 0) with 0%Q.
  split; rewrite Qplus_0_l; reflexivity.
Qed.

(** C6 as stated fails: the circles of Bench 1 are centred at latitude
    23.1783, the mean of the six listed points, while the mean of the
    five vertices of the polygon is 23.17812. *)
Lemma C6_centre_is_not_the_vertex_mean :
  exists (out : Outputs Q) (w' : World Q) (bench : BenchRec Q) (center : Q * Q)
         (tooltip : string),
    update_dashboard 10%Q 1%Q 0%Q 200%Q 10%Q 5%Q 0 false "Manual"
                     (initial_world sample_rng None) = Some (out, w')
    /\ find_bench "Bench 1" = Some bench
    /\ nth_error (map_items out) 4
       = Some (Circle center 30 (risk_color Low) (literal 5 10) tooltip)
    /\ length (polygon_vertices (b_coords bench)) = 5%nat
    /\ (fst center == 231783 # 10000)%Q
    /\ (fst (vertex_mean (b_coords bench)) == 2317812 # 100000)%Q
    /\ ~ (fst center == fst (vertex_mean (b_coords bench)))%Q.
Proof.
  do 5 eexists. split; [reflexivity |]. split; [reflexivity |].
  split; [vm_compute; reflexivity |]. split; [vm_compute; reflexivity |].
  split; [vm_compute; reflexivity |]. split; [vm_compute; reflexivity |].
  intros Hq. vm_compute in Hq. discriminate.
Qed.

(** C6, amended.  In every tick the map holds, for each result in turn
    (one per bench of the catalog), the circles of layers 0, 1 and 2
    followed by the bench label.  The circle of layer k has radius
    30*(k+1), the colour of its level, and a tooltip naming the bench,
    the layer k+1, the level and the score with one decimal, level and
    score being what the scorer answers on the result's reading with
    slope + 2*k and the [deterministic] flag of the tick.  All are
    centred at [sum/len] of the listed points of the bench polygon: in
    exact arithmetic the arithmetic mean of the listed latitudes and
    longitudes, the closing point, which repeats the first vertex,
    included (every polygon of the catalog lists six points for five
    vertices).  In binary64 the centres of the catalog are the numbers
    below, under the summation of CPython up to 3.11 and under the
    compensated one of 3.12 on, which differ in the last digit for
    Bench 2; all lie within 1e-13 of the exact means. *)
Theorem C6_geo_layers :
  (forall (num : Type) (P : PyNum num) (rain1 vib1 blast1 rain2 vib2 blast2 : num)
          (n_intervals : Z) (show_dem : bool) (mode : string) (w : World num),
      exists (out : Outputs num) (w' : World num) (layers : list (list (MapItem num))),
        update_dashboard rain1 vib1 blast1 rain2 vib2 blast2 n_intervals show_dem mode w
        = Some (out, w')
        /\ map_items out = furniture ++ concat layers ++ dem_items show_dem (dem_overlay w)
        /\ map (@Bench num) (map row_result (data out)) = map (@b_id num) benches
        /\ Forall2 (fun r items =>
                      exists (bench : BenchRec num) (center : num * num)
                             (risk0 risk1 risk2 : RiskLevel) (score0 score1 score2 : num),
                        let det := String.eqb mode "Manual" in
                        let circle (layer : Z) (risk : RiskLevel) (score : num) :=
                          Circle center (30 * (layer + 1)) (risk_color risk) (literal 5 10)
                                 (b_id bench ++ " - Layer " ++ show_nat (layer + 1) ++ ": "
                                  ++ risk_label risk ++ " (" ++ format_1f score ++ ")")%string
                        in
                        find_bench (Bench r) = Some bench
                        /\ centroid (b_coords bench) = Some center
                        /\ scorer_answer (Rainfall r) (Vibration r) (Blast r)
                                         (b_slope bench + 2 * 0) det (risk0, score0)
                        /\ scorer_answer (Rainfall r) (Vibration r) (Blast r)
                                         (b_slope bench + 2 * 1) det (risk1, score1)
                        /\ scorer_answer (Rainfall r) (Vibration r) (Blast r)
                                         (b_slope bench + 2 * 2) det (risk2, score2)
                        /\ items = [circle 0%Z risk0 score0; circle 1%Z risk1 score1;
                                    circle 2%Z risk2 score2;
                                    DivMarker center ("<b>" ++ b_id bench ++ "</b>")%string])
                   (map row_result (data out)) layers)
  /\ (centroid (@nil (Q * Q)) = None
      /\ forall (p : Q * Q) (coords : list (Q * Q)),
         exists center : Q * Q,
           centroid (p :: coords) = Some center
           /\ (fst center == Q_mean (map fst (p :: coords)))%Q
           /\ (snd center == Q_mean (map snd (p :: coords)))%Q)
  /\ (forall (num : Type) (P : PyNum num),
         Forall (fun bench : BenchRec num =>
                   length (b_coords bench) = 6%nat
                   /\ nth_error (b_coords bench) 5 = nth_error (b_coords bench) 0)
                benches)
  /\ (map (fun bench => centroid (b_coords bench)) (@benches float _)
      = [Some (23.178300000000004%float, 72.65155%float);
         Some (23.17273333333333%float, 72.645816666666676%float);
         Some (23.170100000000001%float, 72.650916666666674%float);
         Some (23.165983333333333%float, 72.643066666666655%float)]
      /\ map (fun bench => centroid_compensated (b_coords bench)) (@benches float _)
         = [Some (23.178300000000004%float, 72.65155%float);
            Some (23.172733333333337%float, 72.645816666666676%float);
            Some (23.170100000000001%float, 72.650916666666674%float);
            Some (23.165983333333333%float, 72.643066666666655%float)]
      /\ Forall2 (fun bench_f bench_q =>
                    exists (plain compensated : float * float) (exact : Q * Q),
                      centroid (b_coords bench_f) = Some plain
                      /\ centroid_compensated (b_coords bench_f) = Some compensated
                      /\ centroid (b_coords bench_q) = Some exact
                      /\ f_within (1 # 10 ^ 13) (fst plain) (fst exact) = true
                      /\ f_within (1 # 10 ^ 13) (snd plain) (snd exact) = true
                      /\ f_within (1 # 10 ^ 13) (fst compensated) (fst exact) = true
                      /\ f_within (1 # 10 ^ 13) (snd compensated) (snd exact) = true)
                 (@benches float _) (@benches Q _))
  /\ (exists (out : Outputs float) (w' : World float),
         update_dashboard (of_int 10) (of_int 1) (of_int 0) (of_int 200) (of_int 10)
                          (of_int 5) 0 false "Manual" (initial_world sample_rng None)
         = Some (out, w')
         /\ firstn 4 (skipn 4 (map_items out))
            = [Circle (23.178300000000004%float, 72.65155%float) 30 "#4CAF50" 0.5%float
                      "Bench 1 - Layer 1: Low (26.5)";
               Circle (23.178300000000004%float, 72.65155%float) 60 "#4CAF50" 0.5%float
                      "Bench 1 - Layer 2: Low (27.5)";
               Circle (23.178300000000004%float, 72.65155%float) 90 "#4CAF50" 0.5%float
                      "Bench 1 - Layer 3: Low (28.5)";
               DivMarker (23.178300000000004%float, 72.65155%float) "<b>Bench 1</b>"]
         /\ nth_error (map_items out) 16
            = Some (Circle (23.165983333333333%float, 72.643066666666655%float) 30
                           "#E53935" 0.5%float "Bench 4 - Layer 1: High (225.0)")).
Proof.
  split; [| split; [| split; [| split]]].
  - intros num P r1 v1 b1 r2 v2 b2 n sd mode w.
    destruct (update_dashboard_spec r1 v1 b1 r2 v2 b2 n sd mode w)
      as (rd1 & rd2 & results & layers & g & E & _ & HR & HL).
    cbv zeta in E, HR, HL.
    eexists. eexists. exists layers. split; [exact E |].
    rewrite data_results. split; [reflexivity |].
    split; [apply (results_for_benches _ _ _ _ HR) |].
    eapply Forall2_impl; [| exact HL].
    intros r items (bench & center & circles & Hf & Hcen & Hc & ->).
    inversion Hc as [| ? c0 ? l0 H0 Hc1]; subst; clear Hc.
    inversion Hc1 as [| ? c1 ? l1 H1 Hc2]; subst; clear Hc1.
    inversion Hc2 as [| ? c2 ? l2 H2 Hc3]; subst; clear Hc2.
    inversion Hc3; subst; clear Hc3.
    destruct H0 as (k0 & s0 & A0 & ->), H1 as (k1 & s1 & A1 & ->),
             H2 as (k2 & s2 & A2 & ->).
    exists bench, center, k0, k1, k2, s0, s1, s2. cbv zeta.
    now repeat split.
  - split; [reflexivity | exact centroid_Q_mean].
  - intros num P. apply Forall_forall. intros bench Hin.
    now apply catalog_polygons_closed.
  - split; [vm_compute; reflexivity |]. split; [vm_compute; reflexivity |].
    unfold benches.
    repeat constructor; do 3 eexists;
      (split; [reflexivity |]); (split; [reflexivity |]); (split; [reflexivity |]);
      repeat split; vm_compute; reflexivity.
  - eexists. eexists. split; [reflexivity |]. split; vm_compute; reflexivity.
Qed.

(* ================================================================== *)
(** ** The layers of a Manual tick *)
(* ================================================================== *)



(* ================================================================== *)
(** ** The Manual table in binary64 *)
(* ================================================================== *)

(** A number less than a half away from an integer rounds to it. *)
Lemma round_half_even_unique (q : Q) (t : Z) :
  (inject_Z t - (1 # 2) < q)%Q -> (q < inject_Z t + (1 # 2))%Q -> round_half_even q = t.
Proof.
  intros Hlo Hhi. unfold round_half_even.
  pose proof (Qfloor_le q) as Hf. pose proof (Qlt_floor q) as Hf'.
  rewrite inject_Z_plus in Hf'. change (inject_Z 1) with 1%Q in Hf'.
  set (f := Qfloor q) in *.
  assert (Hcases : (f = t \/ f + 1 = t)%Z).
  { destruct (Z_lt_le_dec t f) as [Htf | Htf].
    - exfalso. assert (Hq : (inject_Z (t + 1) <= inject_Z f)%Q) by (rewrite <- Zle_Qle; lia).
      rewrite inject_Z_plus in Hq. change (inject_Z 1) with 1%Q in Hq. lra.
    - destruct (Z_lt_le_dec (f + 1) t) as [Hft | Hft]; [| lia].
      exfalso. assert (Hq : (inject_Z (f + 1 + 1) <= inject_Z t)%Q)
        by (rewrite <- Zle_Qle; lia).
      rewrite !inject_Z_plus in Hq. change (inject_Z 1) with 1%Q in Hq. lra. }
  destruct Hcases as [E | E].
  - assert (Hc : (q - inject_Z f ?= 1 # 2)%Q = Lt)
      by (apply (proj1 (Qlt_alt _ _)); rewrite E; lra).
    now rewrite Hc.
  - assert (Hc : (q - inject_Z f ?= 1 # 2)%Q = Gt).
    { apply (proj1 (Qgt_alt _ _)). rewrite <- E, inject_Z_plus in Hlo.
      change (inject_Z 1) with 1%Q in Hlo. lra. }
    now rewrite Hc.
Qed.

(** The exact magnitude of a binary64 with a negative exponent. *)
Lemma magnitude_neg (m : positive) (e : Z) :
  (e < 0)%Z -> (magnitude m e == inject_Z (Zpos m) / inject_Z (2 ^ (- e)))%Q.
Proof.
  intros He. unfold magnitude.
  replace e with (- (- e))%Z at 1 by lia.
  rewrite Qpower_opp, <- (Zpower_Qpower 2 (- e)) by lia.
  reflexivity.
Qed.

Lemma digits2_pos_size (p : positive) : digits2_pos p = Pos.size p.
Proof. induction p as [p IH | p IH |]; cbn [digits2_pos Pos.size]; now rewrite ?IH. Qed.

(** A mantissa of 53 bits. *)
Lemma digits2_pos_53 (p : positive) :
  (2 ^ 52 <= Zpos p < 2 ^ 53)%Z -> Zpos (digits2_pos p) = 53%Z.
Proof.
  intros [Hlo Hhi]. rewrite digits2_pos_size.
  pose proof (Pos.size_gt p) as Hgt. pose proof (Pos.size_le p) as Hle.
  apply Pos2Z.pos_lt_pos in Hgt. apply Pos2Z.pos_le_pos in Hle.
  rewrite Pos2Z.inj_pow in Hgt, Hle. change (Zpos p~0) with (2 * Zpos p)%Z in Hle.
  set (s := Zpos (Pos.size p)) in *.
  assert (Hs : (0 < s)%Z) by (subst s; lia).
  destruct (Z_lt_le_dec s 53) as [H1 | H1].
  - exfalso. assert (2 ^ s <= 2 ^ 52)%Z by (apply Z.pow_le_mono_r; lia). lia.
  - destruct (Z_lt_le_dec 53 s) as [H2 | H2]; [| lia].
    exfalso. assert (2 ^ 54 <= 2 ^ s)%Z by (apply Z.pow_le_mono_r; lia).
    change (2 ^ 54)%Z with (2 * 2 ^ 53)%Z in H. lia.
Qed.

(** The decomposition of a positive normal binary64 read off the
    primitives [frshiftexp] and [normfr_mantissa]. *)
Lemma Prim2SF_normal (x r : float) (se : PrimInt63.int) (p : positive) :
  PrimFloat.is_nan x = false -> PrimFloat.is_zero x = false ->
  PrimFloat.is_infinity x = false -> PrimFloat.get_sign x = false ->
  frshiftexp x = (r, se) ->
  Uint63Axioms.to_Z (normfr_mantissa r) = Zpos p ->
  (2 ^ 52 <= Zpos p < 2 ^ 53)%Z ->
  (-1074 <= Uint63Axioms.to_Z se - 2154)%Z ->
  Prim2SF x = S754_finite false p (Uint63Axioms.to_Z se - 2154).
Proof.
  intros Hn Hz Hi Hs Hfr Hm Hp He.
  unfold Prim2SF, FloatOps.Z.frexp. rewrite Hn, Hz, Hi, Hs, Hfr, Hm.
  unfold shr_fexp, Zdigits2. rewrite (digits2_pos_53 p Hp).
  unfold fexp, SpecFloat.emin.
  change (Z.sub (Z.sub (Uint63Axioms.to_Z se) shift) prec)
    with (Uint63Axioms.to_Z se - 2101 - 53)%Z.
  replace (Uint63Axioms.to_Z se - 2101 - 53)%Z with (Uint63Axioms.to_Z se - 2154)%Z by lia.
  set (e := (Uint63Axioms.to_Z se - 2154)%Z) in *.
  replace (Z.sub (Z.max (Z.sub (Z.add 53 e) prec) (Z.sub (Z.sub 3 emax) prec)) e)
    with 0%Z.
  - reflexivity.
  - change prec with 53%Z. change emax with 1024%Z. lia.
Qed.

Lemma to_Z_add_small (x y : PrimInt63.int) :
  (Uint63Axioms.to_Z x + Uint63Axioms.to_Z y < 2 ^ 63)%Z ->
  Uint63Axioms.to_Z (PrimInt63.add x y) = (Uint63Axioms.to_Z x + Uint63Axioms.to_Z y)%Z.
Proof.
  intros Hs. rewrite Uint63Axioms.add_spec. apply Z.mod_small.
  pose proof (Uint63.to_Z_bounded x). pose proof (Uint63.to_Z_bounded y).
  change Uint63Axioms.wB with (2 ^ 63)%Z in *. lia.
Qed.

Lemma to_Z_mul_small (x y : PrimInt63.int) :
  (Uint63Axioms.to_Z x * Uint63Axioms.to_Z y < 2 ^ 63)%Z ->
  Uint63Axioms.to_Z (PrimInt63.mul x y) = (Uint63Axioms.to_Z x * Uint63Axioms.to_Z y)%Z.
Proof.
  intros Hs. rewrite Uint63Axioms.mul_spec. apply Z.mod_small.
  pose proof (Uint63.to_Z_bounded x). pose proof (Uint63.to_Z_bounded y).
  change Uint63Axioms.wB with (2 ^ 63)%Z in *. nia.
Qed.

Lemma to_Z_int_of (z : Z) : (0 <= z < 2 ^ 63)%Z -> Uint63Axioms.to_Z (int_of z) = z.
Proof.
  intros Hz. unfold int_of. rewrite Uint63.of_Z_spec. now apply Z.mod_small.
Qed.

Lemma tenths_are_spec (x : float) (t : PrimInt63.int) :
  tenths_are x t = true -> round1 x = literal (Uint63Axioms.to_Z t) 10.
Proof.
  unfold tenths_are. intros Hc.
  repeat (apply andb_true_iff in Hc; destruct Hc as [Hc ?]).
  destruct (frshiftexp x) as [r se] eqn:Hfr. cbv zeta in *.
  repeat match goal with
         | H : (_ && _)%bool = true |- _ => apply andb_true_iff in H; destruct H
         | H : negb _ = true |- _ => apply negb_true_iff in H
         | H : PrimInt63.leb _ _ = true |- _ => apply Uint63Axioms.leb_spec in H
         | H : PrimInt63.ltb _ _ = true |- _ => apply Uint63Axioms.ltb_spec in H
         end.
  match goal with H : (Uint63Axioms.to_Z i2106 <= _)%Z |- _ =>
    change (Uint63Axioms.to_Z i2106) with 2106%Z in H; rename H into Hse1 end.
  match goal with H : (_ <= Uint63Axioms.to_Z i2150)%Z |- _ =>
    change (Uint63Axioms.to_Z i2150) with 2150%Z in H; rename H into Hse2 end.
  match goal with H : (Uint63Axioms.to_Z i2p52 <= _)%Z |- _ =>
    change (Uint63Axioms.to_Z i2p52) with (2 ^ 52)%Z in H; rename H into Hm1 end.
  match goal with H : (_ < Uint63Axioms.to_Z i2p53)%Z |- _ =>
    change (Uint63Axioms.to_Z i2p53) with (2 ^ 53)%Z in H; rename H into Hm2 end.
  match goal with H : (_ < Uint63Axioms.to_Z i8192)%Z |- _ =>
    change (Uint63Axioms.to_Z i8192) with 8192%Z in H; rename H into Ht end.
  match goal with H : (Uint63Axioms.to_Z (PrimInt63.mul i20 _) < _)%Z |- _ =>
    rename H into Hlt1 end.
  match goal with H : (_ < Uint63Axioms.to_Z (PrimInt63.add (PrimInt63.mul i20 _) _))%Z |- _ =>
    rename H into Hlt2 end.
  set (mant := normfr_mantissa r) in *.
  set (M := Uint63Axioms.to_Z mant) in *.
  set (T := Uint63Axioms.to_Z t) in *.
  set (E := Uint63Axioms.to_Z se) in *.
  pose proof (Uint63.to_Z_bounded t) as Ht0. fold T in Ht0.
  (* the shift count and the shifted terms *)
  assert (Hk : Uint63Axioms.to_Z (PrimInt63.sub i2154 se) = (2154 - E)%Z).
  { rewrite Uint63Axioms.sub_spec. change (Uint63Axioms.to_Z i2154) with 2154%Z. fold E.
    apply Z.mod_small. change Uint63Axioms.wB with (2 ^ 63)%Z. lia. }
  set (k := (2154 - E)%Z) in *.
  assert (Hk4 : (4 <= k <= 48)%Z) by (subst k; lia).
  assert (Hpk : (2 ^ 4 <= 2 ^ k <= 2 ^ 48)%Z)
    by (split; apply Z.pow_le_mono_r; lia).
  assert (H2t : Uint63Axioms.to_Z (PrimInt63.mul i2 t) = (2 * T)%Z).
  { rewrite to_Z_mul_small; change (Uint63Axioms.to_Z i2) with 2%Z; fold T; lia. }
  assert (Htt : Uint63Axioms.to_Z (PrimInt63.lsl (PrimInt63.mul i2 t) (PrimInt63.sub i2154 se))
                = (2 * T * 2 ^ k)%Z).
  { rewrite Uint63Axioms.lsl_spec, H2t, Hk. apply Z.mod_small.
    change Uint63Axioms.wB with (2 ^ 63)%Z.
    assert (2 * T * 2 ^ k <= 2 ^ 14 * 2 ^ 48)%Z by nia.
    change (2 ^ 14 * 2 ^ 48)%Z with (2 ^ 62)%Z in *.
    assert (2 ^ 62 < 2 ^ 63)%Z by reflexivity. nia. }
  assert (Hhalf : Uint63Axioms.to_Z (PrimInt63.lsl i1 (PrimInt63.sub i2154 se)) = (2 ^ k)%Z).
  { rewrite Uint63Axioms.lsl_spec, Hk. change (Uint63Axioms.to_Z i1) with 1%Z.
    rewrite Z.mul_1_l. apply Z.mod_small. change Uint63Axioms.wB with (2 ^ 63)%Z.
    assert (2 ^ 48 < 2 ^ 63)%Z by reflexivity. lia. }
  assert (Hm20 : Uint63Axioms.to_Z (PrimInt63.mul i20 mant) = (20 * M)%Z).
  { rewrite to_Z_mul_small; change (Uint63Axioms.to_Z i20) with 20%Z; fold M.
    - reflexivity.
    - assert (2 ^ 53 * 20 < 2 ^ 63)%Z by reflexivity. lia. }
  rewrite to_Z_add_small in Hlt1, Hlt2.
  2: { rewrite Hm20, Hhalf. assert (20 * 2 ^ 53 + 2 ^ 48 < 2 ^ 63)%Z by reflexivity. lia. }
  2: { rewrite Htt, Hhalf.
       assert (2 * T * 2 ^ k <= 2 ^ 14 * 2 ^ 48)%Z by nia.
       change (2 ^ 14 * 2 ^ 48)%Z with (2 ^ 62)%Z in *.
       assert (2 ^ 62 + 2 ^ 48 < 2 ^ 63)%Z by reflexivity. lia. }
  rewrite Htt, Hhalf, Hm20 in Hlt1, Hlt2.
  (* the decomposition of [x] *)
  destruct M as [| p | p] eqn:EM; try (exfalso; lia).
  assert (Hx : Prim2SF x = S754_finite false p (E - 2154)%Z).
  { apply (Prim2SF_normal x r se p); try assumption;
      first [split; assumption | fold E; lia]. }
  cbn [round1 literal PyNum_float]. unfold f_round1, f_literal. rewrite Hx.
  destruct (-3 <=? E - 2154)%Z eqn:He'; [apply Z.leb_le in He'; lia |].
  f_equal. f_equal. unfold tenths. apply round_half_even_unique.
  - rewrite magnitude_neg by lia.
    replace (- (E - 2154))%Z with k by (subst k; lia).
    assert (Hp' : (0 < inject_Z (2 ^ k))%Q) by (rewrite <- (Zlt_Qlt 0); lia).
    assert (Hz : (2 * (T * 2 ^ k) + - (2 ^ k) < 20 * Zpos p)%Z) by lia.
    rewrite Zlt_Qlt in Hz. rewrite inject_Z_plus, inject_Z_opp, !inject_Z_mult in Hz.
    change (inject_Z 2) with 2%Q in Hz. change (inject_Z 20) with 20%Q in Hz.
    unfold Qdiv. rewrite <- Qmult_assoc, (Qmult_comm (/ inject_Z (2 ^ k))), Qmult_assoc.
    apply Qlt_shift_div_l; [exact Hp' |].
    setoid_replace ((inject_Z T - (1 # 2)) * inject_Z (2 ^ k))%Q
      with (inject_Z T * inject_Z (2 ^ k) - (1 # 2) * inject_Z (2 ^ k))%Q by ring.
    lra.
  - rewrite magnitude_neg by lia.
    replace (- (E - 2154))%Z with k by (subst k; lia).
    assert (Hp' : (0 < inject_Z (2 ^ k))%Q) by (rewrite <- (Zlt_Qlt 0); lia).
    assert (Hz : (20 * Zpos p < 2 * (T * 2 ^ k) + 2 ^ k)%Z) by lia.
    rewrite Zlt_Qlt in Hz. rewrite inject_Z_plus, !inject_Z_mult in Hz.
    change (inject_Z 2) with 2%Q in Hz. change (inject_Z 20) with 20%Q in Hz.
    unfold Qdiv. rewrite <- Qmult_assoc, (Qmult_comm (/ inject_Z (2 ^ k))), Qmult_assoc.
    apply Qlt_shift_div_r; [exact Hp' |].
    setoid_replace ((inject_Z T + (1 # 2)) * inject_Z (2 ^ k))%Q
      with (inject_Z T * inject_Z (2 ^ k) + (1 # 2) * inject_Z (2 ^ k))%Q by ring.
    lra.
Qed.

Lemma level_of_tenths_int_spec (t : PrimInt63.int) :
  level_of_tenths_int t = level_of_tenths (Uint63Axioms.to_Z t).
Proof.
  unfold level_of_tenths_int, level_of_tenths.
  assert (Hlt : forall b : PrimInt63.int,
             PrimInt63.ltb t b = (Uint63Axioms.to_Z t <? Uint63Axioms.to_Z b)%Z).
  { intros b. destruct (PrimInt63.ltb t b) eqn:E.
    - apply Uint63Axioms.ltb_spec in E. symmetry. now apply Z.ltb_lt.
    - symmetry. apply Z.ltb_ge. destruct (Z_lt_le_dec (Uint63Axioms.to_Z t)
                                                      (Uint63Axioms.to_Z b)) as [H | H];
        [| exact H].
      apply Uint63Axioms.ltb_spec in H. congruence. }
  rewrite !Hlt. reflexivity.
Qed.

Lemma upto_In (n : nat) (z : Z) : (0 <= z <= Z.of_nat n)%Z -> In z (upto n).
Proof.
  intros Hz. unfold upto. apply in_map_iff. exists (Z.to_nat z).
  split; [lia |]. apply in_seq. lia.
Qed.

Lemma indexed_In (f : Z -> float) (weight : Z) (n : nat) (z : Z) :
  (0 <= z <= Z.of_nat n)%Z -> In (z, f z, int_of (weight * z)) (indexed f weight n).
Proof.
  intros Hz. unfold indexed. apply in_map_iff. exists z.
  split; [reflexivity | now apply upto_In].
Qed.

Lemma table_agrees_at (slope a c b : Z) :
  table_agrees slope = true ->
  (0 <= slope <= 1000)%Z ->
  (0 <= a <= 200)%Z -> (0 <= c <= 100)%Z -> (0 <= b <= 5)%Z ->
  let raw := score_of (f_of_int a) (f_literal c 10) (f_of_int b) slope (literal 2 1)
                      (of_int 0) in
  round1 raw = literal (exact_tenths slope a c b) 10
  /\ classify raw = level_of_tenths (exact_tenths slope a c b).
Proof.
  unfold table_agrees. cbv zeta. intros G Hs Ha Hc Hb.
  rewrite forallb_forall in G. specialize (G _ (indexed_In f_of_int 4 200 a Ha)).
  rewrite forallb_forall in G.
  specialize (G _ (indexed_In (fun n => f_literal n 10) 5 100 c Hc)).
  rewrite forallb_forall in G. specialize (G _ (indexed_In f_of_int 130 5 b Hb)).
  unfold row_agrees in G. cbn [fst snd] in G.
  apply andb_true_iff in G. destruct G as [Gt Gl].
  set (t := PrimInt63.add _ _) in *.
  assert (Et : Uint63Axioms.to_Z t = exact_tenths slope a c b).
  { subst t. unfold exact_tenths.
    assert (2 ^ 20 < 2 ^ 63)%Z by reflexivity.
    assert (E0 : Uint63Axioms.to_Z (int_of (5 * slope)) = (5 * slope)%Z)
      by (apply to_Z_int_of; lia).
    assert (E1 : Uint63Axioms.to_Z (int_of (4 * a)) = (4 * a)%Z)
      by (apply to_Z_int_of; lia).
    assert (E2 : Uint63Axioms.to_Z (int_of (5 * c)) = (5 * c)%Z)
      by (apply to_Z_int_of; lia).
    assert (E3 : Uint63Axioms.to_Z (int_of (130 * b)) = (130 * b)%Z)
      by (apply to_Z_int_of; lia).
    assert (A1 : Uint63Axioms.to_Z (PrimInt63.add (int_of (5 * slope)) (int_of (4 * a)))
                 = (5 * slope + 4 * a)%Z)
      by (rewrite to_Z_add_small; rewrite E0, E1; lia).
    assert (A2 : Uint63Axioms.to_Z
                   (PrimInt63.add (PrimInt63.add (int_of (5 * slope)) (int_of (4 * a)))
                                  (int_of (5 * c)))
                 = (5 * slope + 4 * a + 5 * c)%Z)
      by (rewrite to_Z_add_small; rewrite A1, E2; lia).
    rewrite to_Z_add_small; rewrite A2, E3; lia. }
  rewrite score_of_binary64, classify_binary64.
  split.
  - rewrite <- Et. now apply tenths_are_spec.
  - rewrite <- Et, <- level_of_tenths_int_spec.
    unfold level_eqb in Gl. apply Nat.eqb_eq in Gl.
    destruct (fast_classify _), (level_of_tenths_int _); cbn in Gl; congruence.
Qed.

Lemma catalog_table_agrees (bench : BenchRec float) :
  In bench benches ->
  table_agrees (b_slope bench) = true /\ (0 <= b_slope bench <= 1000)%Z.
Proof.
  intros Hb. unfold benches in Hb. cbn [In] in Hb.
  destruct Hb as [<- | [<- | [<- | [<- | []]]]];
    (split; [vm_compute; reflexivity | cbn [b_slope]; lia]).
Qed.

(** The table row of a bench, in exact arithmetic, under a slider
    reading. *)
Lemma slider_result_exact (a c b : Z) (bench_id : string) (r : RiskResult Q) :
  result_for true (inject_Z a, c # 10, inject_Z b) bench_id r ->
  Bench r = bench_id
  /\ Score r = exact_tenths (Slope r) a c b # 10
  /\ Risk r = level_of_tenths (exact_tenths (Slope r) a c b).
Proof.
  intros (bench & rs & Hf & Hs & ->). cbn [fst snd] in Hs.
  apply scorer_answer_deterministic in Hs. subst rs. cbn [Bench Slope Score Risk fst snd].
  pose proof (slider_score_tenths a c b (b_slope bench)) as Ht.
  fold (exact_tenths (b_slope bench) a c b) in Ht.
  set (t := exact_tenths (b_slope bench) a c b) in *.
  set (raw := score_of _ _ _ _ _ _) in *.
  split; [reflexivity |]. split.
  - cbn [round1 PyNum_Q]. unfold Q_round1, tenths.
    now rewrite (round_half_even_integer _ _ Ht).
  - destruct (classify_spec raw) as (HL & HM & HH).
    unfold level_of_tenths.
    destruct (t <? 400)%Z eqn:E4; [| destruct (t <? 700)%Z eqn:E7].
    + apply Z.ltb_lt in E4. apply HL.
      rewrite Zlt_Qlt in E4. rewrite <- Ht in E4. change (inject_Z 400) with 400%Q in E4.
      lra.
    + apply Z.ltb_ge in E4. apply Z.ltb_lt in E7. apply HM.
      rewrite Zle_Qle in E4. rewrite Zlt_Qlt in E7. rewrite <- Ht in E4, E7.
      change (inject_Z 400) with 400%Q in E4. change (inject_Z 700) with 700%Q in E7.
      split; lra.
    + apply Z.ltb_ge in E7. apply HH.
      rewrite Zle_Qle in E7. rewrite <- Ht in E7. change (inject_Z 700) with 700%Q in E7.
      lra.
Qed.

(** The same row in binary64. *)
Lemma slider_result_binary64 (a c b : Z) (bench_id : string) (r : RiskResult float) :
  (0 <= a <= 200)%Z -> (0 <= c <= 100)%Z -> (0 <= b <= 5)%Z ->
  result_for true (f_of_int a, f_literal c 10, f_of_int b) bench_id r ->
  Bench r = bench_id
  /\ Score r = literal (exact_tenths (Slope r) a c b) 10
  /\ Risk r = level_of_tenths (exact_tenths (Slope r) a c b).
Proof.
  intros Ha Hc Hb (bench & rs & Hf & Hs & ->). cbn [fst snd] in Hs.
  apply scorer_answer_deterministic in Hs. subst rs. cbn [Bench Slope Score Risk fst snd].
  destruct (find_bench_catalog _ _ Hf) as [Hin _].
  destruct (catalog_table_agrees bench Hin) as [Hg Hs].
  destruct (table_agrees_at (b_slope bench) a c b Hg Hs Ha Hc Hb) as [Hr Hl].
  split; [reflexivity |]. split; assumption.
Qed.

Lemma find_bench_slope {num : Type} `{PyNum num} (bench_id : string) (bench : BenchRec num) :
  find_bench bench_id = Some bench ->
  In (bench_id, b_slope bench)
     [("Bench 1", 35%Z); ("Bench 2", 50%Z); ("Bench 3", 45%Z); ("Bench 4", 60%Z)].
Proof.
  intros Hf. destruct (find_bench_catalog _ _ Hf) as [Hin <-].
  unfold benches in Hin. cbn [In] in Hin.
  destruct Hin as [<- | [<- | [<- | [<- | []]]]]; cbn; tauto.
Qed.

Lemma result_for_slope {num : Type} `{PyNum num} (det : bool) (rd : num * num * num)
  (bench_id : string) (r : RiskResult num) :
  result_for det rd bench_id r ->
  In (bench_id, Slope r)
     [("Bench 1", 35%Z); ("Bench 2", 50%Z); ("Bench 3", 45%Z); ("Bench 4", 60%Z)].
Proof.
  intros (bench & rs & Hf & _ & ->). cbn [Slope]. now apply find_bench_slope.
Qed.

Lemma slider_rows_agree (a c b : Z) (bench_id : string) (rf : RiskResult float)
  (rq : RiskResult Q) :
  (0 <= a <= 200)%Z -> (0 <= c <= 100)%Z -> (0 <= b <= 5)%Z ->
  result_for true (f_of_int a, f_literal c 10, f_of_int b) bench_id rf ->
  result_for true (inject_Z a, c # 10, inject_Z b) bench_id rq ->
  Bench rf = Bench rq /\ Slope rf = Slope rq /\ Risk rf = Risk rq
  /\ exists t : Z,
       t = exact_tenths (Slope rq) a c b
       /\ Score rq = t # 10 /\ Score rf = literal t 10.
Proof.
  intros Ha Hc Hb Rf Rq.
  assert (Hslope : Slope rf = Slope rq).
  { pose proof (result_for_slope _ _ _ _ Rf) as Sf.
    pose proof (result_for_slope _ _ _ _ Rq) as Sq.
    cbn [In] in Sf, Sq.
    destruct Sf as [Sf | [Sf | [Sf | [Sf | []]]]];
      destruct Sq as [Sq | [Sq | [Sq | [Sq | []]]]];
      inversion Sf; inversion Sq; subst; try discriminate; congruence. }
  destruct (slider_result_binary64 _ _ _ _ _ Ha Hc Hb Rf) as (Bf & Sf & Lf).
  destruct (slider_result_exact _ _ _ _ _ Rq) as (Bq & Sq & Lq).
  rewrite Hslope in Sf, Lf.
  split; [congruence |]. split; [exact Hslope |]. split; [congruence |].
  eexists. split; [reflexivity |]. split; assumption.
Qed.

(** X5. On every reading the sliders can send, the table of a Manual
    tick computed in binary64 is the table of exact arithmetic: row by
    row the same bench, slope and level, and a [Score] that is the
    binary64 of the decimal the exact [Score] is, namely [t/10] for
    [t = 5*slope + 4*rain + 50*vib + 130*blast].  Rounding to one decimal
    removes the rounding errors of the binary64 score, and none of them
    carries a score across a threshold. *)
Theorem X5_manual_table_binary64 :
  forall (a1 c1 b1 a2 c2 b2 n_intervals : Z) (show_dem : bool)
         (wf : World float) (wq : World Q),
    (0 <= a1 <= 200)%Z -> (0 <= c1 <= 100)%Z -> (0 <= b1 <= 5)%Z ->
    (0 <= a2 <= 200)%Z -> (0 <= c2 <= 100)%Z -> (0 <= b2 <= 5)%Z ->
    exists (outf : Outputs float) (wf' : World float) (outq : Outputs Q) (wq' : World Q),
      update_dashboard (of_int a1) (literal c1 10) (of_int b1)
                       (of_int a2) (literal c2 10) (of_int b2)
                       n_intervals show_dem "Manual" wf = Some (outf, wf')
      /\ update_dashboard (of_int a1) (literal c1 10) (of_int b1)
                          (of_int a2) (literal c2 10) (of_int b2)
                          n_intervals show_dem "Manual" wq = Some (outq, wq')
      /\ Forall2 (fun rowf rowq =>
                    let rf := row_result rowf in
                    let rq := row_result rowq in
                    Bench rf = Bench rq /\ Slope rf = Slope rq /\ Risk rf = Risk rq
                    /\ Status rowf = Status rowq
                    /\ exists t a c b : Z,
                         In (a, c, b) [(a1, c1, b1); (a2, c2, b2)]
                         /\ t = (5 * Slope rq + 4 * a + 5 * c + 130 * b)%Z
                         /\ Score rq = t # 10 /\ Score rf = literal t 10)
                 (data outf) (data outq).
Proof.
  intros a1 c1 b1 a2 c2 b2 n sd wf wq Ha1 Hc1 Hb1 Ha2 Hc2 Hb2.
  destruct (update_dashboard_spec (of_int a1) (literal c1 10) (of_int b1)
              (of_int a2) (literal c2 10) (of_int b2) n sd "Manual" wf)
    as (fd1 & fd2 & fres & flayers & fg & Ef & FI & FR & _).
  destruct (update_dashboard_spec (of_int a1) (literal c1 10) (of_int b1)
              (of_int a2) (literal c2 10) (of_int b2) n sd "Manual" wq)
    as (qd1 & qd2 & qres & qlayers & qg & Eq & QI & QR & _).
  cbv zeta in Ef, FR, Eq, QR.
  change (String.eqb "Manual" "Manual") with true in FR, QR.
  unfold readings_for in FI, QI. change (String.eqb "Manual" "Auto") with false in FI, QI.
  destruct FI as [-> ->]. destruct QI as [-> ->].
  do 4 eexists. split; [exact Ef |]. split; [exact Eq |].
  unfold outputs_of; cbn [data].
  destruct FR as (f1 & f2 & f3 & f4 & -> & F1 & F2 & F3 & F4).
  destruct QR as (q1 & q2 & q3 & q4 & -> & Q1 & Q2 & Q3 & Q4).
  cbn [of_int literal PyNum_float PyNum_Q] in F1, F2, F3, F4, Q1, Q2, Q3, Q4.
  cbn [map].
  pose proof (slider_rows_agree a1 c1 b1 _ f1 q1 Ha1 Hc1 Hb1 F1 Q1) as H1.
  pose proof (slider_rows_agree a1 c1 b1 _ f2 q2 Ha1 Hc1 Hb1 F2 Q2) as H2.
  pose proof (slider_rows_agree a2 c2 b2 _ f3 q3 Ha2 Hc2 Hb2 F3 Q3) as H3.
  pose proof (slider_rows_agree a2 c2 b2 _ f4 q4 Ha2 Hc2 Hb2 F4 Q4) as H4.
  repeat apply Forall2_cons; [| | | | apply Forall2_nil]; cbv zeta; cbn [row_result Status];
    match goal with
    | Hrow : Bench ?rf = Bench ?rq /\ _ |- Bench ?rf = Bench ?rq /\ _ =>
        destruct Hrow as (B & S & L & t & Et & Sq & Sf);
        split; [exact B |]; split; [exact S |]; split; [exact L |];
        split; [now rewrite L |];
        match type of Et with
        | t = exact_tenths _ ?a ?c ?b =>
            exists t, a, c, b; split; [cbn [In]; tauto |];
            split; [exact Et |]; split; assumption
        end
    end.
Qed.

Lemma X5_manual_table_binary64_witness :
  exists (outf : Outputs float) (wf' : World float) (outq : Outputs Q) (wq' : World Q),
    update_dashboard (of_int 23) (literal 0 10) (of_int 0)
                     (of_int 200) (literal 100 10) (of_int 5)
                     0 false "Manual" (initial_world sample_rng None) = Some (outf, wf')
    /\ update_dashboard (of_int 23) (literal 0 10) (of_int 0)
                        (of_int 200) (literal 100 10) (of_int 5)
                        0 false "Manual" (initial_world sample_rng None) = Some (outq, wq')
    /\ Forall2 (fun rowf rowq =>
                  let rf := row_result rowf in
                  let rq := row_result rowq in
                  Bench rf = Bench rq /\ Slope rf = Slope rq /\ Risk rf = Risk rq
                  /\ Status rowf = Status rowq
                  /\ exists t a c b : Z,
                       In (a, c, b) [(23, 0, 0); (200, 100, 5)]%Z
                       /\ t = (5 * Slope rq + 4 * a + 5 * c + 130 * b)%Z
                       /\ Score rq = t # 10 /\ Score rf = literal t 10)
               (data outf) (data outq).
Proof.
  apply (X5_manual_table_binary64 23 0 0 200 100 5 0 false
           (initial_world sample_rng None) (initial_world sample_rng None)); lia.
Defined.
